(** * Paleontology analysis tools: the FossilAnalyzer class of
    fossil_analyzer.py, embedded and verified.

    The development follows the source file top to bottom:
    - [Np]      the numpy reductions the analyzer calls, their float64
                results left to numpy;
    - [Ieee]    a numpy that computes them in double precision;
    - [Py]      Python values, exceptions and the state-and-exception monad;
    - [Analyzer] the methods of [FossilAnalyzer], one definition per method;
    - the properties of those methods. *)

From Stdlib Require Import ZArith QArith Qabs Qreals Reals Lra Lia.
From Stdlib Require Floats Uint63.
From Stdlib Require Import String Ascii List.
From stdpp Require Import base gmap sets list strings pretty.

Set Warnings "-register-all".
#[local] Open Scope Z_scope.

(* ===================================================================== *)
(** * numpy: arrays and reductions *)
(* ===================================================================== *)

Module Np.

(** A float64 as the analyzer meets it: nan, or a finite number, which is
    a rational.  (The reductions below are of 8-bit samples and of means
    and differences of them; none of them overflows.) *)
Inductive npfloat : Type :=
| NaN
| Fin (q : Q).

Definition Qltb (x y : Q) : bool := negb (Qle_bool y x).

(** [x < y] on floats; any comparison with [NaN] is false. *)
Definition ltb (x y : npfloat) : bool :=
  match x, y with
  | Fin a, Fin b => Qltb a b
  | _, _ => false
  end.

(** [x > y] is [y < x], as in Python. *)
Definition gtb (x y : npfloat) : bool := ltb y x.

(** A pixel of an RGB image and the array [np.array(img)] of shape
    (height, width, 3): a list of rows, each a list of pixels. *)
Definition pixel : Type := Z * Z * Z.
Definition ndarray3 : Type := list (list pixel).
(** A two-dimensional float64 array (the grey image, the edge map). *)
Definition ndarray2 : Type := list (list Q).

Definition red (p : pixel) : Z := fst (fst p).
Definition green (p : pixel) : Z := snd (fst p).
Definition blue (p : pixel) : Z := snd p.

(** The pixels of an array in row-major order, and all its samples. *)
Definition pixels (a : ndarray3) : list pixel := concat a.
Definition samples (a : ndarray3) : list Z :=
  flat_map (fun p => [red p; green p; blue p]) (pixels a).

Definition Qsum (xs : list Q) : Q := fold_right Qplus 0%Q xs.
Definition Qlen (xs : list Q) : Q := inject_Z (Z.of_nat (length xs)).

(** [sum(xs) / len(xs)]. *)
Definition Qmean (xs : list Q) : Q := (Qsum xs / Qlen xs)%Q.

(** The mean of a flat list of numbers; an empty one gives nan. *)
Definition mean (xs : list Q) : npfloat :=
  match xs with [] => NaN | _ => Fin (Qred (Qmean xs)) end.

(** [np.mean(a)] over every sample of an RGB array: the sum of the
    samples, which float64 holds exactly, divided by their number. *)
Definition mean3 (a : ndarray3) : npfloat := mean (map inject_Z (samples a)).

(** What the other reductions return depends on how numpy rounds and in
    which order it adds, so their float64 results are left to numpy: the
    mean of the three samples of a pixel, the difference of two floats,
    and, each for an array that is not empty, [np.mean] and [np.std] of a
    two-dimensional float array, [np.var] of an RGB array, and [np.std]
    of one channel (its rows of samples) over both spatial axes. *)
Class Float64 : Type := {
  f64_mean_pixel : pixel -> Q;
  f64_sub : Q -> Q -> Q;
  f64_mean2 : ndarray2 -> Q;
  f64_std2 : ndarray2 -> Q;
  f64_var3 : ndarray3 -> Q;
  f64_std_channel : list (list Z) -> Q
}.

Section Reductions.
Context `{Float64}.

(** [np.var(a)] over every sample of an RGB array; nan when there is none. *)
Definition var3 (a : ndarray3) : npfloat :=
  match samples a with [] => NaN | _ => Fin (f64_var3 a) end.

(** [np.mean(a, axis=2)]: the mean of the three channels of every pixel. *)
Definition mean_axis2 (a : ndarray3) : ndarray2 :=
  map (map f64_mean_pixel) a.

(** [np.std(g)], [np.mean(g)] over a two-dimensional array; nan when it
    has no element. *)
Definition std2 (g : ndarray2) : npfloat :=
  match concat g with [] => NaN | _ => Fin (f64_std2 g) end.
Definition mean2 (g : ndarray2) : npfloat :=
  match concat g with [] => NaN | _ => Fin (f64_mean2 g) end.

(** [np.std(a, axis=(0, 1))]: one standard deviation per channel, each
    over all the pixels; always an array of shape (3,), of nan when there
    is no pixel. *)
Definition channel (c : pixel -> Z) (a : ndarray3) : list (list Z) :=
  map (map c) a.
Definition std_channel (c : pixel -> Z) (a : ndarray3) : npfloat :=
  match pixels a with [] => NaN | _ => Fin (f64_std_channel (channel c a)) end.
Definition std_axis01 (a : ndarray3) : npfloat * npfloat * npfloat :=
  (std_channel red a, std_channel green a, std_channel blue a).

(** [np.diff(g, axis=0)]: [g[1:] - g[:-1]], row by row. *)
Definition row_sub (r1 r0 : list Q) : list Q := zip_with f64_sub r1 r0.
Definition diff_axis0 (g : ndarray2) : ndarray2 :=
  zip_with row_sub (tail g) g.

End Reductions.

(** [np.max] of two and of three floats; a nan operand gives nan. *)
Definition max2 (x y : npfloat) : npfloat :=
  match x, y with
  | NaN, _ | _, NaN => NaN
  | _, _ => if ltb x y then y else x
  end.
Definition max (v : npfloat * npfloat * npfloat) : npfloat :=
  let '(x, y, z) := v in max2 (max2 x y) z.

(** [np.abs(g)]. *)
Definition abs (g : ndarray2) : ndarray2 := map (map Qabs) g.

End Np.

(* ===================================================================== *)
(** * Python values, files, and the analyzer's state *)
(* ===================================================================== *)

Module Py.

(** The values a result record holds.  [PyNpBool] is numpy's [bool_], what
    a comparison of a numpy float returns; it is no Python [bool]. *)
Inductive pyval : Type :=
| PyStr (s : string)
| PyInt (n : Z)
| PyFloat (x : Np.npfloat)
| PyBool (b : bool)
| PyNpBool (b : bool)
| PyList (l : list pyval)
| PyDict (d : gmap string pyval).

Abbreviation dict := (gmap string pyval).

(** An exception: its class and [str(e)]. *)
Inductive exn : Type := Exn (cls : string) (msg : string).

Definition str_exn (e : exn) : string := let 'Exn _ msg := e in msg.

(** A PIL image: its mode, its size as (width, height), and its pixels.
    The analyzer reads the pixels only after [convert('RGB')], so an image
    of any mode is kept by the RGB rendering of its pixels. *)
Record Image : Type := {
  mode : string;
  size : nat * nat;
  rgb : Np.ndarray3
}.

(** What a path names: a directory with its entries in listing order, a
    file whose bytes PIL decodes to an image, or any other file. *)
Inductive Node : Type :=
| Dir (names : list string)
| Picture (img : Image)
| Text (content : string).

Abbreviation filesystem := (gmap string Node).

(** The object [self]. *)
Record FossilAnalyzer : Type := {
  model_path : option string;
  analysis_history : list dict
}.

(** Everything a method call can read or change: the files, the paths the
    operating system refuses to open for writing, what was printed, how
    often the clock was read, and the analyzer. *)
Record State : Type := {
  fs : filesystem;
  readonly : gset string;
  stdout : list string;
  clock : nat;
  self : FossilAnalyzer
}.

(** What the analyzer asks of the Python runtime and leaves to it:
    the timestamp of the n-th reading of the clock, [str] of a value that
    is no string, and [json.dump], which yields the text it wrote and the
    exception it ended with, if any. *)
Class Runtime : Type := {
  isoformat : nat -> string;
  py_str : pyval -> string;
  json_dump : list dict -> string * option exn
}.

Inductive result (A : Type) : Type :=
| Ok (a : A)
| Raise (e : exn).
Arguments Ok {A} a.
Arguments Raise {A} e.

(** A computation that reads and changes the state and returns or raises;
    the state changes made before a raise stay. *)
Definition M (A : Type) : Type := State -> result A * State.

Definition ret {A} (a : A) : M A := fun st => (Ok a, st).
Definition raise {A} (e : exn) : M A := fun st => (Raise e, st).
Definition bind {A B} (m : M A) (k : A -> M B) : M B :=
  fun st =>
    match m st with
    | (Ok a, st') => k a st'
    | (Raise e, st') => (Raise e, st')
    end.

(** [try: m  except Exception as e: h e]. *)
Definition try_except {A} (m : M A) (h : exn -> M A) : M A :=
  fun st =>
    match m st with
    | (Ok a, st') => (Ok a, st')
    | (Raise e, st') => h e st'
    end.

Definition get : M State := fun st => (Ok st, st).
Definition modify (f : State -> State) : M unit := fun st => (Ok tt, f st).

End Py.

Import Py.

Declare Scope py_scope.
Delimit Scope py_scope with py.
Notation "'let*' x ':=' m 'in' k" := (bind m (fun x => k))
  (at level 10, x name, m at level 100, k at level 200) : py_scope.
Notation "'do' m 'in' k" := (bind m (fun _ => k))
  (at level 10, m at level 100, k at level 200) : py_scope.
#[local] Open Scope py_scope.

(* ===================================================================== *)
(** * The operating system and the libraries, as the analyzer uses them *)
(* ===================================================================== *)

Module Os.

Definition set_fs (f : filesystem) (st : State) : State :=
  {| fs := f; readonly := readonly st; stdout := stdout st;
     clock := clock st; self := self st |}.

Definition set_stdout (out : list string) (st : State) : State :=
  {| fs := fs st; readonly := readonly st; stdout := out;
     clock := clock st; self := self st |}.

Definition set_clock (ticks : nat) (st : State) : State :=
  {| fs := fs st; readonly := readonly st; stdout := stdout st;
     clock := ticks; self := self st |}.

Definition set_history (h : list dict) (st : State) : State :=
  {| fs := fs st; readonly := readonly st; stdout := stdout st;
     clock := clock st;
     self := {| model_path := model_path (self st); analysis_history := h |} |}.

(** [print(line)]. *)
Definition print (line : string) : M unit :=
  modify (fun st => set_stdout (stdout st ++ [line]) st).

(** [datetime.now().isoformat()]: one more reading of the clock. *)
Definition datetime_now_isoformat `{Runtime} : M string :=
  fun st => (Ok (isoformat (clock st)), set_clock (S (clock st)) st).

Definition squote (path : string) : string := "'" +:+ path +:+ "'".

(** [Image.open(path)] with the decoding it delays until the pixels are
    read: an image for a file PIL decodes, an exception otherwise. *)
Definition Image_open (path : string) : M Image :=
  fun st =>
    match fs st !! path with
    | Some (Picture img) => (Ok img, st)
    | Some (Text _) =>
        (Raise (Exn "UnidentifiedImageError"
                  ("cannot identify image file " +:+ squote path)), st)
    | Some (Dir _) =>
        (Raise (Exn "IsADirectoryError"
                  ("[Errno 21] Is a directory: " +:+ squote path)), st)
    | None =>
        (Raise (Exn "FileNotFoundError"
                  ("[Errno 2] No such file or directory: " +:+ squote path)), st)
    end.

(** [img.convert('RGB')]: same size, same rendering, mode RGB. *)
Definition Image_convert_RGB (img : Image) : Image :=
  {| mode := "RGB"; size := size img; rgb := rgb img |}.

(** [np.array(img)] of an RGB image. *)
Definition np_array (img : Image) : Np.ndarray3 := rgb img.

(** [open(path, 'w')]: a directory cannot be opened for writing, nor a
    path the operating system refuses; otherwise the file is created or
    cut to length zero at once. *)
Definition open_w (path : string) : M unit :=
  fun st =>
    match fs st !! path with
    | Some (Dir _) =>
        (Raise (Exn "IsADirectoryError"
                  ("[Errno 21] Is a directory: " +:+ squote path)), st)
    | _ =>
        if bool_decide (path ∈ readonly st) then
          (Raise (Exn "PermissionError"
                    ("[Errno 13] Permission denied: " +:+ squote path)), st)
        else (Ok tt, set_fs (<[path := Text ""]> (fs st)) st)
    end.

(** [f.write(text)] on the file opened at [path]. *)
Definition file_write (path text : string) : M unit :=
  modify (fun st =>
    match fs st !! path with
    | Some (Text old) => set_fs (<[path := Text (old +:+ text)]> (fs st)) st
    | _ => st
    end).

(** [Path(p).exists()]. *)
Definition path_exists (p : string) : M bool :=
  fun st => (Ok (bool_decide (is_Some (fs st !! p))), st).

(** [s.split('/')]. *)
Fixpoint split_slash (s : string) : list string :=
  match s with
  | EmptyString => [EmptyString]
  | String a s' =>
      if Ascii.eqb a "/" then EmptyString :: split_slash s'
      else match split_slash s' with
           | [] => [String a EmptyString]
           | part :: parts => String a part :: parts
           end
  end.

(** How pathlib reads a POSIX path: its root (one slash, or two when the
    string starts with exactly two) and its parts; empty parts and the
    parts ["."] are dropped. *)
Definition path_root (s : string) : string :=
  match s with
  | String a (String b rest) =>
      if Ascii.eqb a "/" then
        if Ascii.eqb b "/" then
          match rest with
          | String c _ => if Ascii.eqb c "/" then "/" else "//"
          | EmptyString => "//"
          end
        else "/"
      else ""
  | String a EmptyString => if Ascii.eqb a "/" then "/" else ""
  | EmptyString => ""
  end.
Definition path_parts (s : string) : list string :=
  List.filter (fun part => negb (String.eqb part "" || String.eqb part "."))
              (split_slash s).

(** [str] of a path of the given root and parts; the empty path is ["."]. *)
Definition path_str (root : string) (parts : list string) : string :=
  match root, parts with
  | EmptyString, [] => "."
  | _, _ => root +:+ String.concat "/" parts
  end.

(** [str(Path(directory) / name)]: the parts of both, under the root of
    the directory; a name with a root of its own replaces the directory. *)
Definition path_join (directory name : string) : string :=
  match path_root name with
  | EmptyString =>
      path_str (path_root directory) (path_parts directory ++ path_parts name)
  | root => path_str root (path_parts name)
  end.

(** [Path(p).iterdir()]: the names in the directory. *)
Definition iterdir (p : string) : M (list string) :=
  fun st =>
    match fs st !! p with
    | Some (Dir names) => (Ok names, st)
    | Some _ =>
        (Raise (Exn "NotADirectoryError"
                  ("[Errno 20] Not a directory: " +:+ squote p)), st)
    | None =>
        (Raise (Exn "FileNotFoundError"
                  ("[Errno 2] No such file or directory: " +:+ squote p)), st)
    end.

(** [name.rfind(c)]. *)
Fixpoint rfind (c : ascii) (s : string) : option nat :=
  match s with
  | EmptyString => None
  | String a s' =>
      match rfind c s' with
      | Some i => Some (S i)
      | None => if Ascii.eqb a c then Some 0%nat else None
      end
  end.

(** [Path.suffix] of a file name: from the last dot on, unless that dot
    starts or ends the name. *)
Definition suffix (name : string) : string :=
  match rfind "." name with
  | Some i =>
      if ((0 <? i)%nat && (i <? String.length name - 1)%nat)%bool
      then substring i (String.length name - i) name
      else ""
  | None => ""
  end.

(** [s.lower()], on the letters A to Z. *)
Definition lower_ascii (a : ascii) : ascii :=
  let n := nat_of_ascii a in
  if ((65 <=? n)%nat && (n <=? 90)%nat)%bool then ascii_of_nat (n + 32) else a.
Fixpoint lower (s : string) : string :=
  match s with
  | EmptyString => EmptyString
  | String a s' => String (lower_ascii a) (lower s')
  end.

(** The csv module's writer in its default dialect: a field that holds a
    comma, a quote or a line break is put in quotes, with every quote in it
    written twice; a row ends with CR LF. *)
Definition dquote : ascii := ascii_of_nat 34.
Definition needs_quote (a : ascii) : bool :=
  (Ascii.eqb a "," || Ascii.eqb a dquote
   || Ascii.eqb a (ascii_of_nat 13) || Ascii.eqb a (ascii_of_nat 10))%bool.
Fixpoint any_char (f : ascii -> bool) (s : string) : bool :=
  match s with
  | EmptyString => false
  | String a s' => (f a || any_char f s')%bool
  end.
Fixpoint double_quotes (s : string) : string :=
  match s with
  | EmptyString => EmptyString
  | String a s' =>
      if Ascii.eqb a dquote then String a (String a (double_quotes s'))
      else String a (double_quotes s')
  end.
Definition csv_field (s : string) : string :=
  if any_char needs_quote s
  then String dquote (double_quotes s) +:+ String dquote EmptyString
  else s.
Definition csv_line (fields : list string) : string :=
  String.concat "," (map csv_field fields)
  +:+ String (ascii_of_nat 13) (String (ascii_of_nat 10) EmptyString).

(** The text of a value in a csv row. *)
Definition csv_text `{Runtime} (v : pyval) : string :=
  match v with
  | PyStr s => s
  | _ => py_str v
  end.

(** [d[key]] on a dict and on any value. *)
Definition dict_getitem (d : dict) (key : string) : M pyval :=
  match d !! key with
  | Some v => ret v
  | None => raise (Exn "KeyError" (squote key))
  end.
Definition getitem (v : pyval) (key : string) : M pyval :=
  match v with
  | PyDict d => dict_getitem d key
  | _ => raise (Exn "TypeError" "indices must be integers")
  end.

(** [for x in xs: body x]. *)
Fixpoint for_each {A} (xs : list A) (body : A -> M unit) : M unit :=
  match xs with
  | [] => ret tt
  | x :: xs' => do body x in for_each xs' body
  end.

End Os.

(* ===================================================================== *)
(** * class FossilAnalyzer *)
(* ===================================================================== *)

Module Analyzer.
Import Os.

Section Methods.
Context `{Runtime} `{Np.Float64}.

(** [__init__]: a fresh analyzer has an empty history. *)
Definition __init__ (model : option string) : FossilAnalyzer :=
  {| model_path := model; analysis_history := [] |}.

(** The table inside [_suggest_species]. *)
Definition species_database : gmap string (list string) :=
  list_to_map
    [ ("Permineralized Bone", ["Tyrannosaurus Rex"; "Triceratops"; "Velociraptor"]);
      ("Petrified Wood", ["Araucarioxylon"; "Archaeopteris"; "Cordaites"]);
      ("Shell Fragment", ["Ammonite"; "Brachiopod"; "Trilobite"]) ].

(** [species_database.get(fossil_type, ["Unknown"])]. *)
Definition _suggest_species (fossil_type : string) : list string :=
  default ["Unknown"] (species_database !! fossil_type).

Definition _analyze_texture (img_array : Np.ndarray3) : Np.npfloat :=
  let gray := Np.mean_axis2 img_array in
  let texture := Np.std2 gray in
  texture.

Definition _detect_mineralization (img_array : Np.ndarray3) : bool :=
  let color_std := Np.std_axis01 img_array in
  Np.gtb (Np.max color_std) (Np.Fin 50).

Definition _detect_edges (img_array : Np.ndarray3) : Np.ndarray2 :=
  let gray := Np.mean_axis2 img_array in
  let edges := Np.abs (Np.diff_axis0 gray) in
  edges.

(** The literal [0.3] is the float64 next below 3/10: a float64 exceeds
    the one exactly when it exceeds the other. *)
Definition _identify_bone_structure (img_array : Np.ndarray3) : bool :=
  let edges := _detect_edges img_array in
  Np.gtb (Np.mean2 edges) (Np.Fin 0.3).

Definition _detect_fossil_features (img_array : Np.ndarray3) : dict :=
  let texture_score := _analyze_texture img_array in
  let mineralization := _detect_mineralization img_array in
  let bone_structure := _identify_bone_structure img_array in
  list_to_map
    [ ("texture_score", PyFloat texture_score);
      ("mineralization_detected", PyNpBool mineralization);
      ("bone_structure_visible", PyNpBool bone_structure);
      ("confidence", PyFloat (Np.Fin 0.75)) ].

Definition _classify_fossil (img_array : Np.ndarray3) : dict :=
  let avg_intensity := Np.mean3 img_array in
  let '(fossil_type, period) :=
    if Np.ltb avg_intensity (Np.Fin 100) then
      ("Permineralized Bone", "Mesozoic")
    else if Np.ltb avg_intensity (Np.Fin 150) then
      ("Petrified Wood", "Paleozoic")
    else
      ("Shell Fragment", "Cenozoic") in
  list_to_map
    [ ("primary_type", PyStr fossil_type);
      ("geological_period", PyStr period);
      ("possible_species", PyList (map PyStr (_suggest_species fossil_type)));
      ("confidence", PyFloat (Np.Fin 0.68)) ].

Definition _estimate_age (img_array : Np.ndarray3) : dict :=
  list_to_map
    [ ("estimated_age_million_years", PyStr "65-230");
      ("geological_era", PyStr "Mesozoic");
      ("confidence", PyStr "Medium");
      ("notes", PyStr "Requires laboratory analysis for precise dating") ].

Definition _assess_preservation (img_array : Np.ndarray3) : dict :=
  let color_variance := Np.var3 img_array in
  let '(quality, score) :=
    if Np.gtb color_variance (Np.Fin 1000) then ("Excellent", 9.2%Q)
    else if Np.gtb color_variance (Np.Fin 500) then ("Good", 7.5%Q)
    else ("Fair", 5.8%Q) in
  list_to_map
    [ ("quality_rating", PyStr quality);
      ("preservation_score", PyFloat (Np.Fin score));
      ("completeness", PyStr "Partial");
      ("recommended_preservation", PyStr "Climate-controlled storage") ].

(** [self.analysis_history.append(result)]. *)
Definition history_append (result : dict) : M unit :=
  modify (fun st =>
    set_history (analysis_history (self st) ++ [result]) st).

(** The body of the [try] of [analyze_image]. *)
Definition analyze_image_try (image_path : string) : M dict :=
  let* img := Image_open image_path in
  let img := if negb (String.eqb (mode img) "RGB")
             then Image_convert_RGB img else img in
  let '(width, height) := size img in
  let img_array := np_array img in
  let avg_brightness := Np.mean3 img_array in
  let color_variance := Np.var3 img_array in
  let* timestamp := datetime_now_isoformat in
  let result : dict :=
    list_to_map
      [ ("timestamp", PyStr timestamp);
        ("image_path", PyStr image_path);
        ("image_dimensions",
          PyDict (list_to_map [ ("width", PyInt (Z.of_nat width));
                                ("height", PyInt (Z.of_nat height)) ]));
        ("image_properties",
          PyDict (list_to_map [ ("brightness", PyFloat avg_brightness);
                                ("color_variance", PyFloat color_variance) ]));
        ("fossil_detection", PyDict (_detect_fossil_features img_array));
        ("classification", PyDict (_classify_fossil img_array));
        ("age_estimation", PyDict (_estimate_age img_array));
        ("preservation_quality", PyDict (_assess_preservation img_array)) ] in
  do history_append result in
  ret result.

Definition analyze_image (image_path : string) : M dict :=
  try_except (analyze_image_try image_path)
    (fun e =>
       ret (list_to_map [ ("error", PyStr (str_exn e));
                          ("image_path", PyStr image_path) ])).

Definition image_extensions : gset string :=
  {[ ".jpg"; ".jpeg"; ".png"; ".bmp"; ".tiff" ]}.

(** The loop of [batch_analyze] over the names of the directory. *)
Fixpoint batch_loop (directory : string) (names : list string)
    (results : list dict) : M (list dict) :=
  match names with
  | [] => ret results
  | name :: names' =>
      if bool_decide (lower (suffix name) ∈ image_extensions) then
        do print ("Analyzing: " +:+ name) in
        let* result := analyze_image (path_join directory name) in
        batch_loop directory names' (results ++ [result])
      else batch_loop directory names' results
  end.

Definition batch_analyze (directory : string) : M (list dict) :=
  let* found := path_exists directory in
  if negb found then
    ret [ list_to_map [ ("error", PyStr ("Directory not found: " +:+ directory)) ] ]
  else
    let* names := iterdir directory in
    batch_loop directory names [].

(** One turn of the loop of [_export_csv]. *)
Definition csv_write_result (output_path : string) (result : dict) : M unit :=
  if negb (bool_decide ("error" ∈ dom result)) then
    let* timestamp := dict_getitem result "timestamp" in
    let* image_path := dict_getitem result "image_path" in
    let* classification := dict_getitem result "classification" in
    let* fossil_type := getitem classification "primary_type" in
    let* age_estimation := dict_getitem result "age_estimation" in
    let* age := getitem age_estimation "estimated_age_million_years" in
    let* preservation := dict_getitem result "preservation_quality" in
    let* quality := getitem preservation "quality_rating" in
    file_write output_path
      (csv_line (map csv_text [timestamp; image_path; fossil_type; age; quality]))
  else ret tt.

Definition csv_fieldnames : list string :=
  ["timestamp"; "image_path"; "fossil_type"; "age"; "quality"].

Definition _export_csv (output_path : string) : M unit :=
  do open_w output_path in
  let* st := get in
  match analysis_history (self st) with
  | [] => ret tt
  | history =>
      do file_write output_path (csv_line csv_fieldnames) in
      for_each history (csv_write_result output_path)
  end.

(** [json.dump(self.analysis_history, f, indent=2)] into the file opened
    at [output_path]. *)
Definition export_json (output_path : string) : M unit :=
  do open_w output_path in
  let* st := get in
  let '(text, failure) := json_dump (analysis_history (self st)) in
  do file_write output_path text in
  match failure with
  | Some e => raise e
  | None => ret tt
  end.

Definition export_results (output_path format : string) : M unit :=
  do (if String.eqb format "json" then export_json output_path
      else if String.eqb format "csv" then _export_csv output_path
      else ret tt) in
  print ("Results exported to: " +:+ output_path).

End Methods.
End Analyzer.

(* ===================================================================== *)
(** * The vocabulary of the properties *)
(* ===================================================================== *)

Module Spec.
Import Os Analyzer.

(** ** Floats read as real numbers *)

(** The real number a float stands for; nan stands for none. *)
Definition denote (x : Np.npfloat) : option R :=
  match x with
  | Np.NaN => None
  | Np.Fin q => Some (Q2R q)
  end.

(** The order of the real numbers on floats; nan is related to nothing. *)
Definition lt (x y : Np.npfloat) : Prop :=
  exists a b, denote x = Some a /\ denote y = Some b /\ (a < b)%R.
Definition le (x y : Np.npfloat) : Prop :=
  exists a b, denote x = Some a /\ denote y = Some b /\ (a <= b)%R.
Definition eq (x y : Np.npfloat) : Prop :=
  exists a b, denote x = Some a /\ denote y = Some b /\ a = b.

(** ** The standard deviation of a channel *)



(** ** Images and files *)

(** [path] names a file that PIL decodes. *)
Definition decodable (st : State) (path : string) : Prop :=
  exists img, fs st !! path = Some (Picture img).

(** [open(path, 'w')] succeeds. *)
Definition writable (st : State) (path : string) : Prop :=
  (forall names, fs st !! path <> Some (Dir names)) /\ path ∉ readonly st.

(** An array of [height] rows of [width] pixels (of three samples each). *)
Definition has_shape (a : Np.ndarray3) (height width : nat) : Prop :=
  length a = height /\ Forall (fun row => length row = width) a.

(** PIL keeps the size of an image and its pixel rows in step. *)
Definition well_shaped (img : Image) : Prop :=
  has_shape (rgb img) (snd (size img)) (fst (size img)).

(** A record of the history that is no error record. *)
Definition no_error (r : dict) : Prop := r !! "error" = None.

(** ** What a client does with an analyzer *)

Inductive call : Type :=
| Analyze (image_path : string)
| Batch (directory : string)
| Export (output_path format : string).

(** The state after a call, whether it returned or raised. *)
Definition after `{Runtime} `{Np.Float64} (c : call) (st : State) : State :=
  match c with
  | Analyze image_path => snd (analyze_image image_path st)
  | Batch directory => snd (batch_analyze directory st)
  | Export output_path format => snd (export_results output_path format st)
  end.

(** The state after a sequence of calls on an analyzer made by
    [__init__] in a world with the given files, output and clock. *)
Definition started (files : filesystem) (locked : gset string)
    (out : list string) (ticks : nat) (model : option string) : State :=
  {| fs := files; readonly := locked; stdout := out; clock := ticks;
     self := __init__ model |}.
Definition run `{Runtime} `{Np.Float64} (calls : list call) (st : State) : State :=
  fold_left (fun st c => after c st) calls st.

(** A property of the state that a computation keeps, whether it returns
    or raises. *)
Definition preserves {A} (inv : State -> Prop) (m : M A) : Prop :=
  forall st, inv st -> inv (snd (m st)).

(** The line [_export_csv] writes for a record that has the five values
    it reads. *)
Definition csv_row `{Runtime} (r : dict) : option string :=
  match r !! "timestamp", r !! "image_path", r !! "classification",
        r !! "age_estimation", r !! "preservation_quality" with
  | Some t, Some p, Some (PyDict c), Some (PyDict a), Some (PyDict q) =>
      match c !! "primary_type", a !! "estimated_age_million_years",
            q !! "quality_rating" with
      | Some ty, Some age, Some ql =>
          Some (csv_line (map csv_text [t; p; ty; age; ql]))
      | _, _, _ => None
      end
  | _, _, _, _, _ => None
  end.

(** A record as [analyze_image] files it: no error record, and one the
    csv export has a line for. *)
Definition filed `{Runtime} (r : dict) : Prop :=
  no_error r /\ is_Some (csv_row r).

(** Every record of the history is a filed one. *)
Definition all_filed `{Runtime} (st : State) : Prop :=
  Forall filed (analysis_history (self st)).

End Spec.

(* ===================================================================== *)
(** * A numpy that computes in IEEE 754 double precision *)
(* ===================================================================== *)

Module Ieee.

(** The float64 of an integer and of a rational (exact when float64
    holds the number), and the rational a finite float64 is. *)
Definition of_Z (z : Z) : PrimFloat.float :=
  if (z <? 0)%Z
  then PrimFloat.opp (PrimFloat.of_uint63 (Uint63.of_Z (- z)))
  else PrimFloat.of_uint63 (Uint63.of_Z z).
Definition of_Q (q : Q) : PrimFloat.float :=
  PrimFloat.div (of_Z (Qnum q)) (of_Z (Zpos (Qden q))).
Definition to_Q (x : PrimFloat.float) : Q :=
  match FloatOps.Prim2SF x with
  | SpecFloat.S754_finite negative m e =>
      let v := if (0 <=? e)%Z then inject_Z (Zpos m * 2 ^ e)
               else (Zpos m # Z.to_pos (2 ^ (- e)))%Q in
      Qred (if negative then Qopp v else v)
  | _ => 0%Q
  end.

(** A running sum from zero, as numpy adds along an axis that is not the
    fast one. *)
Definition running_sum (xs : list PrimFloat.float) : PrimFloat.float :=
  fold_left PrimFloat.add xs PrimFloat.zero.

(** numpy's pairwise sum along the fast axis: a running sum below eight
    elements; up to 128, eight running sums over the strided elements,
    added as a tree, then the rest; above, the two halves (the first of a
    length that is a multiple of eight) summed this way and added. *)
Fixpoint add_strided (r : list PrimFloat.float) (xs : list PrimFloat.float)
    (blocks : nat) : list PrimFloat.float :=
  match blocks with
  | O => r
  | S blocks' =>
      add_strided (zip_with PrimFloat.add r (firstn 8 xs)) (skipn 8 xs) blocks'
  end.
Definition block_sum (xs : list PrimFloat.float) : PrimFloat.float :=
  let n := length xs in
  let blocks := (n / 8 - 1)%nat in
  let r := add_strided (firstn 8 xs) (skipn 8 xs) blocks in
  let tree :=
    match r with
    | [r0; r1; r2; r3; r4; r5; r6; r7] =>
        PrimFloat.add
          (PrimFloat.add (PrimFloat.add r0 r1) (PrimFloat.add r2 r3))
          (PrimFloat.add (PrimFloat.add r4 r5) (PrimFloat.add r6 r7))
    | _ => PrimFloat.zero
    end in
  fold_left PrimFloat.add (skipn (8 * (n / 8)) xs) tree.
Fixpoint pairwise_sum (fuel : nat) (xs : list PrimFloat.float) : PrimFloat.float :=
  let n := length xs in
  if (n <? 8)%nat then running_sum xs
  else if (n <=? 128)%nat then block_sum xs
  else
    match fuel with
    | O => block_sum xs
    | S fuel' =>
        let n2 := (n / 2 - (n / 2) mod 8)%nat in
        PrimFloat.add (pairwise_sum fuel' (firstn n2 xs))
                      (pairwise_sum fuel' (skipn n2 xs))
    end.
Definition fast_sum (xs : list PrimFloat.float) : PrimFloat.float :=
  pairwise_sum (length xs) xs.

(** numpy's two-pass variance of a flat array: the mean, the squared
    distances to it, and their mean. *)
Definition variance (sum : list PrimFloat.float -> PrimFloat.float)
    (xs : list PrimFloat.float) : PrimFloat.float :=
  let n := of_Z (Z.of_nat (length xs)) in
  let m := PrimFloat.div (sum xs) n in
  let x := map (fun v => PrimFloat.sub v m) xs in
  let x := map (fun v => PrimFloat.mul v v) x in
  PrimFloat.div (sum x) n.

Definition mean_pixel (p : Np.pixel) : Q :=
  to_Q (PrimFloat.div
          (running_sum [of_Z (Np.red p); of_Z (Np.green p); of_Z (Np.blue p)])
          (of_Z 3)).
Definition sub (x y : Q) : Q := to_Q (PrimFloat.sub (of_Q x) (of_Q y)).
Definition mean2 (g : Np.ndarray2) : Q :=
  let xs := map of_Q (concat g) in
  to_Q (PrimFloat.div (fast_sum xs) (of_Z (Z.of_nat (length xs)))).
Definition std2 (g : Np.ndarray2) : Q :=
  to_Q (PrimFloat.sqrt (variance fast_sum (map of_Q (concat g)))).
Definition var3 (a : Np.ndarray3) : Q :=
  to_Q (variance fast_sum (map of_Z (Np.samples a))).
Definition std_channel (rows : list (list Z)) : Q :=
  to_Q (PrimFloat.sqrt (variance running_sum (map of_Z (concat rows)))).

(** A numpy that computes in float64 this way. *)
Definition float64 : Np.Float64 := {|
  Np.f64_mean_pixel := mean_pixel;
  Np.f64_sub := sub;
  Np.f64_mean2 := mean2;
  Np.f64_std2 := std2;
  Np.f64_var3 := var3;
  Np.f64_std_channel := std_channel
|}.

End Ieee.

(* ===================================================================== *)
(** * Sample data *)
(* ===================================================================== *)

Module Sample.
Import Os Analyzer Spec.

#[export] Instance runtime : Runtime := {|
  isoformat := fun n =>
    "2024-05-01T12:00:0"
    +:+ String (ascii_of_nat (48 + n mod 10)) EmptyString;
  py_str := fun _ => "<object>";
  json_dump := fun _ => ("[]", None)
|}.

(** numpy computes in double precision. *)
#[export] Instance numpy : Np.Float64 := Ieee.float64.

(** Two rows of two pixels; the red channel spans 0 and 255. *)
Definition bone : Image := {|
  mode := "RGB";
  size := (2%nat, 2%nat);
  rgb := [ [ (0, 10, 100); (255, 10, 100) ];
           [ (0, 10, 100); (255, 10, 100) ] ]
|}.

(** A grey-scale image of one pixel whose three samples are 100. *)
Definition wood : Image := {|
  mode := "L";
  size := (1%nat, 1%nat);
  rgb := [ [ (100, 100, 100) ] ]
|}.

(** One row of two pixels with every sample 150, and a near-constant one. *)
Definition shell : Np.ndarray3 := [ [ (150, 150, 150); (150, 150, 150) ] ].

(** Four grey pixels around 100 whose variance is exactly 1000, and four
    whose variance is exactly 500. *)
Definition variance_1000 : Np.ndarray3 :=
  [ [ (80, 80, 80); (120, 120, 120) ]; [ (60, 60, 60); (140, 140, 140) ] ].
Definition variance_500 : Np.ndarray3 :=
  [ [ (90, 90, 90); (110, 110, 110) ]; [ (70, 70, 70); (130, 130, 130) ] ].

(** Three pixels whose variance is 1000 over the rationals, and nine
    whose red channel has standard deviation 50 over the reals: float64
    rounds either a little above. *)
Definition speckled : Np.ndarray3 :=
  [ [ (213, 163, 209); (247, 243, 159); (167, 219, 186) ] ].
Definition banded : Np.ndarray3 :=
  [ [ (238, 0, 0); (232, 0, 0); (185, 0, 0) ];
    [ (153, 0, 0); (127, 0, 0); (92, 0, 0) ];
    [ (124, 0, 0); (102, 0, 0); (139, 0, 0) ] ].

(** One row of seven pixels of one colour. *)
Definition plain : Np.ndarray3 := [ replicate 7 (10, 20, 35) ].

Definition files : filesystem :=
  {[ "fossils" := Dir ["bone.png"; "notes.txt"; "wood.JPG"];
     "fossils/bone.png" := Picture bone;
     "fossils/notes.txt" := Text "field notes";
     "fossils/wood.JPG" := Picture wood;
     "results.csv" := Text "timestamp,image_path" ]}.

(** A fresh analyzer next to those files. *)
Definition world : State := started files {[ "archive.csv" ]} [] 0 None.

End Sample.

(* ===================================================================== *)
(** * The two command lines *)
(* ===================================================================== *)

Module Cli.
Import Os Analyzer.

(** The arguments [main] of fossil_analyzer.py reads after parsing. *)
Record Args : Type := {
  image : option string;
  directory : option string;
  output : string;
  format : string
}.

(** [if value:] on an optional string: [None] and the empty string are
    false. *)
Definition truthy (value : option string) : option string :=
  match value with
  | Some s => if String.eqb s "" then None else Some s
  | None => None
  end.

(** ["=" * n]. *)
Fixpoint rule (n : nat) : string :=
  match n with
  | O => EmptyString
  | S n' => String "=" (rule n')
  end.

Definition newline : string := String (ascii_of_nat 10) EmptyString.

(** [analyzer = FossilAnalyzer()]: the program works on an analyzer of
    its own. *)
Definition new_analyzer : M unit :=
  modify (fun st =>
    {| fs := fs st; readonly := readonly st; stdout := stdout st;
       clock := clock st; self := __init__ None |}).

(** A value a library call returns or the exception it raises. *)
Definition lift {A} (r : result A) : M A :=
  match r with
  | Ok a => ret a
  | Raise e => raise e
  end.

(** [Path(p).is_file()] and [Path(p).is_dir()]. *)
Definition path_is_file (p : string) : M bool :=
  fun st =>
    (Ok (match fs st !! p with
         | Some (Picture _) | Some (Text _) => true
         | _ => false
         end), st).
Definition path_is_dir (p : string) : M bool :=
  fun st =>
    (Ok (match fs st !! p with
         | Some (Dir _) => true
         | _ => false
         end), st).

Section Programs.
Context `{Runtime} `{Np.Float64}.
(** [json.dumps(result, indent=2)]: the text, or the exception raised. *)
Variable json_dumps : dict -> result string.

(** The analysis step of [main]; false when [main] returns early. *)
Definition main_analyze (args : Args) : M bool :=
  match truthy (image args) with
  | Some image_path =>
      do print ("Analyzing single image: " +:+ image_path) in
      let* result := analyze_image image_path in
      let* text := lift (json_dumps result) in
      do print text in
      ret true
  | None =>
      match truthy (directory args) with
      | Some dir =>
          do print ("Batch analyzing directory: " +:+ dir) in
          let* results := batch_analyze dir in
          do print ("Analyzed " +:+ pretty (length results) +:+ " images") in
          ret true
      | None =>
          do print "No image or directory specified. Use --help for usage information." in
          ret false
      end
  end.

(** [main] of fossil_analyzer.py, from the parsed arguments on. *)
Definition main (args : Args) : M unit :=
  do new_analyzer in
  do print (rule 60) in
  do print "Paleontology Analysis Tools v1.0" in
  do print "AI-Powered Fossil Identification System" in
  do print (rule 60) in
  do print "" in
  let* analyzed := main_analyze args in
  if analyzed then
    let* st := get in
    match analysis_history (self st) with
    | [] => ret tt
    | _ =>
        do export_results (output args) (format args) in
        print (newline +:+ "Analysis complete! Results saved to "
               +:+ output args)
    end
  else ret tt.

(** The [analyze] command of cli_tool.py, for a path written in
    pathlib's normal form. *)
Definition cli_analyze (path out fmt : string) : M unit :=
  do new_analyzer in
  let* is_file := path_is_file path in
  do (if is_file then
        let* result := analyze_image path in
        let* text := lift (json_dumps result) in
        print text
      else
        let* is_dir := path_is_dir path in
        if is_dir then
          let* results := batch_analyze path in
          print ("Analyzed " +:+ pretty (length results) +:+ " images")
        else ret tt) in
  do export_results out fmt in
  print ("Results saved to " +:+ out).

End Programs.
End Cli.

(* ===================================================================== *)
(** * More vocabulary *)
(* ===================================================================== *)

Module Cover.
Import Os Analyzer Spec.

(** The test of the loop of [batch_analyze] on a file name. *)
Definition is_image_name (name : string) : bool :=
  bool_decide (lower (suffix name) ∈ image_extensions).

(** A record without an "error" key. *)
Definition succeeded (r : dict) : bool := bool_decide (r !! "error" = None).

(** A relation between the state before and after that a computation
    keeps, whether it returns or raises. *)
Definition steps {A} (rel : State -> State -> Prop) (m : M A) : Prop :=
  forall st, rel st (snd (m st)).

(** No file and no permission has changed. *)
Definition same_files (st st' : State) : Prop :=
  fs st' = fs st /\ readonly st' = readonly st.

(** Of the files only the one at [path] may have changed; the analyzer,
    the clock and the permissions are the same. *)
Definition only_wrote (path : string) (st st' : State) : Prop :=
  self st' = self st /\ clock st' = clock st /\ readonly st' = readonly st
  /\ forall p, p <> path -> fs st' !! p = fs st !! p.

(** The history has only grown at its end. *)
Definition grew (st st' : State) : Prop :=
  analysis_history (self st) `prefix_of` analysis_history (self st').

(** The clock was read once for every record since [ticks], and the
    records are stamped with those readings in order. *)
Definition stamped `{Runtime} (ticks : nat) (st : State) : Prop :=
  clock st = (ticks + length (analysis_history (self st)))%nat
  /\ forall (i : nat) (r : dict),
       analysis_history (self st) !! i = Some r ->
       r !! "timestamp" = Some (PyStr (isoformat (ticks + i))).

End Cover.

(* ===================================================================== *)
(** * Sample runs of the command lines *)
(* ===================================================================== *)

Module Scenario.

(** A [json.dumps] that refuses every record, as the one of the standard
    library refuses a numpy [bool_]. *)
Definition json_dumps (r : dict) : result string :=
  Raise (Exn "TypeError" "Object of type bool_ is not JSON serializable").

(** [--image missing.png] and [--directory museum], each with the
    default output and format. *)
Definition image_missing : Cli.Args := {|
  Cli.image := Some "missing.png";
  Cli.directory := None;
  Cli.output := "results.json";
  Cli.format := "json"
|}.
Definition directory_missing : Cli.Args := {|
  Cli.image := None;
  Cli.directory := Some "museum";
  Cli.output := "results.json";
  Cli.format := "json"
|}.

End Scenario.

(* ===================================================================== *)
(** * Properties: the numeric kernel *)
(* ===================================================================== *)

Import Os Analyzer Spec.

Module NpFacts.

Lemma Qltb_lt (x y : Q) : Np.Qltb x y = true <-> (x < y)%Q.
Proof.
  unfold Np.Qltb. rewrite negb_true_iff, <- not_true_iff_false, Qle_bool_iff.
  split; [apply Qnot_le_lt | apply Qlt_not_le].
Qed.

Lemma Qltb_Rlt (x y : Q) : Np.Qltb x y = true <-> (Q2R x < Q2R y)%R.
Proof.
  rewrite Qltb_lt. split; [apply Qlt_Rlt | apply Rlt_Qlt].
Qed.

Lemma Qltb_Rle (x y : Q) : Np.Qltb x y = false <-> (Q2R y <= Q2R x)%R.
Proof.
  rewrite <- not_true_iff_false, Qltb_Rlt. split; lra.
Qed.

(** The boolean comparison of two rationals decides the real order. *)
Lemma ltb_Fin (a b : Q) :
  Np.ltb (Np.Fin a) (Np.Fin b) = true <-> lt (Np.Fin a) (Np.Fin b).
Proof.
  simpl. rewrite Qltb_Rlt. unfold lt; simpl. split.
  - intros Hab. exists (Q2R a), (Q2R b). auto.
  - intros (x & y & Hx & Hy & Hxy). congruence.
Qed.

Lemma not_ltb_Fin (a b : Q) :
  Np.ltb (Np.Fin a) (Np.Fin b) = false <-> le (Np.Fin b) (Np.Fin a).
Proof.
  simpl. rewrite Qltb_Rle. unfold le; simpl. split.
  - intros Hab. exists (Q2R b), (Q2R a). auto.
  - intros (x & y & Hx & Hy & Hxy). congruence.
Qed.

Lemma lt_irrefl_le (x y : Np.npfloat) : lt x y -> le y x -> False.
Proof.
  intros (a & b & Ha & Hb & Hab) (b' & a' & Hb' & Ha' & Hba).
  rewrite Ha in Ha'. rewrite Hb in Hb'. 
  injection Ha' as <-. injection Hb' as <-. lra.
Qed.

Lemma eq_le (x y : Np.npfloat) : eq x y -> le x y /\ le y x.
Proof.
  intros (a & b & Ha & Hb & Hab). split.
  - exists a, b. repeat split; auto; lra.
  - exists b, a. repeat split; auto; lra.
Qed.

Lemma nan_lt_l y : ~ lt Np.NaN y.
Proof. intros (a & b & Ha & _). discriminate. Qed.
Lemma nan_lt_r x : ~ lt x Np.NaN.
Proof. intros (a & b & _ & Hb & _). discriminate. Qed.
Lemma nan_le_l y : ~ le Np.NaN y.
Proof. intros (a & b & Ha & _). discriminate. Qed.
Lemma nan_le_r x : ~ le x Np.NaN.
Proof. intros (a & b & _ & Hb & _). discriminate. Qed.
Lemma nan_eq_l x : ~ eq Np.NaN x.
Proof. intros (a & b & Ha & _). discriminate. Qed.

Lemma mean_cases (xs : list Q) :
  (xs = [] /\ Np.mean xs = Np.NaN) \/ (xs <> [] /\ exists q, Np.mean xs = Np.Fin q).
Proof.
  destruct xs as [|x xs]; [left; split; reflexivity | right].
  split; [discriminate | eexists; reflexivity].
Qed.

Lemma var3_cases `{Np.Float64} (a : Np.ndarray3) :
  (Np.samples a = [] /\ Np.var3 a = Np.NaN)
  \/ (Np.samples a <> [] /\ exists q, Np.var3 a = Np.Fin q).
Proof.
  unfold Np.var3. destruct (Np.samples a) as [|x xs]; [left; split; reflexivity | right].
  split; [discriminate | eexists; reflexivity].
Qed.

Lemma samples_nil (a : Np.ndarray3) : Np.samples a = [] <-> Np.pixels a = [].
Proof.
  unfold Np.samples. destruct (Np.pixels a); simpl; split; congruence.
Qed.

End NpFacts.

Module RealFacts.


End RealFacts.

(** Turns the order facts about rational floats in the context into
    facts about real numbers and lets [lra] finish. *)
Ltac real_order :=
  repeat match goal with
  | H : lt (Np.Fin _) (Np.Fin _) |- _ =>
      destruct H as (? & ? & [= <-] & [= <-] & H)
  | H : le (Np.Fin _) (Np.Fin _) |- _ =>
      destruct H as (? & ? & [= <-] & [= <-] & H)
  | H : eq (Np.Fin _) (Np.Fin _) |- _ =>
      destruct H as (? & ? & [= <-] & [= <-] & H)
  | H : Np.ltb (Np.Fin _) (Np.Fin _) = true |- _ =>
      apply NpFacts.ltb_Fin in H
  | H : Np.ltb (Np.Fin _) (Np.Fin _) = false |- _ =>
      apply NpFacts.not_ltb_Fin in H
  | H : Np.gtb (Np.Fin _) (Np.Fin _) = _ |- _ => unfold Np.gtb in H
  end;
  unfold Q2R in *; simpl in *; try lra.

(* ===================================================================== *)
(** * Properties: the classifiers *)
(* ===================================================================== *)

Section Classifiers.
Context `{Np.Float64}.

(** C2. For every image buffer the fossil type and the geological period
    follow the mean brightness: below 100 it is Permineralized Bone of the
    Mesozoic, from 100 (included) to 150 (excluded) Petrified Wood of the
    Paleozoic, from 150 (included) on Shell Fragment of the Cenozoic; so a
    brightness of exactly 100 gives Petrified Wood and one of exactly 150
    Shell Fragment.  A buffer with a pixel falls in exactly one bracket. *)
Theorem classify_fossil_brackets (img_array : Np.ndarray3) :
  let brightness := Np.mean3 img_array in
  let c := _classify_fossil img_array in
  let labelled (fossil_type period : string) :=
    c !! "primary_type" = Some (PyStr fossil_type)
    /\ c !! "geological_period" = Some (PyStr period) in
  (lt brightness (Np.Fin 100) -> labelled "Permineralized Bone" "Mesozoic")
  /\ (le (Np.Fin 100) brightness -> lt brightness (Np.Fin 150) ->
      labelled "Petrified Wood" "Paleozoic")
  /\ (le (Np.Fin 150) brightness -> labelled "Shell Fragment" "Cenozoic")
  /\ (eq brightness (Np.Fin 100) -> labelled "Petrified Wood" "Paleozoic")
  /\ (eq brightness (Np.Fin 150) -> labelled "Shell Fragment" "Cenozoic")
  /\ (Np.pixels img_array <> [] ->
      lt brightness (Np.Fin 100)
      \/ (le (Np.Fin 100) brightness /\ lt brightness (Np.Fin 150))
      \/ le (Np.Fin 150) brightness).
Proof.
  cbv zeta. unfold _classify_fossil.
  destruct (NpFacts.mean_cases (map inject_Z (Np.samples img_array)))
    as [[Hnil Hnan] | [Hne [q Hq]]]; fold (Np.mean3 img_array) in *.
  - rewrite Hnan.
    repeat apply conj; try (intros Hx; exfalso; revert Hx;
      first [apply NpFacts.nan_lt_l | apply NpFacts.nan_le_r
            | apply NpFacts.nan_eq_l]).
    intros Hpx. exfalso. apply Hpx, NpFacts.samples_nil.
    now apply map_eq_nil in Hnil.
  - rewrite Hq.
    destruct (Np.ltb (Np.Fin q) (Np.Fin 100)) eqn:H100;
      [| destruct (Np.ltb (Np.Fin q) (Np.Fin 150)) eqn:H150];
      repeat apply conj; intros; try (split; reflexivity);
      try (exfalso; real_order; fail).
    + left. now apply NpFacts.ltb_Fin.
    + right; left. split; [now apply NpFacts.not_ltb_Fin | now apply NpFacts.ltb_Fin].
    + right; right. now apply NpFacts.not_ltb_Fin.
Qed.

(** C3. For every image buffer the preservation rating follows the colour
    variance numpy computes, a boundary value belonging to the lower bracket: above 1000
    it is Excellent with score 9.2, above 500 and up to 1000 (included)
    Good with 7.5, up to 500 (included) Fair with 5.8; so a variance of
    exactly 1000 gives Good and one of exactly 500 Fair.  The completeness
    is always Partial and the recommendation always the same advice. *)
Theorem assess_preservation_brackets (img_array : Np.ndarray3) :
  let variance := Np.var3 img_array in
  let p := _assess_preservation img_array in
  let rated (quality : string) (score : Q) :=
    p !! "quality_rating" = Some (PyStr quality)
    /\ p !! "preservation_score" = Some (PyFloat (Np.Fin score)) in
  (lt (Np.Fin 1000) variance -> rated "Excellent" 9.2%Q)
  /\ (lt (Np.Fin 500) variance -> le variance (Np.Fin 1000) ->
      rated "Good" 7.5%Q)
  /\ (le variance (Np.Fin 500) -> rated "Fair" 5.8%Q)
  /\ (eq variance (Np.Fin 1000) -> rated "Good" 7.5%Q)
  /\ (eq variance (Np.Fin 500) -> rated "Fair" 5.8%Q)
  /\ p !! "completeness" = Some (PyStr "Partial")
  /\ p !! "recommended_preservation" = Some (PyStr "Climate-controlled storage")
  /\ (Np.pixels img_array <> [] ->
      lt (Np.Fin 1000) variance
      \/ (lt (Np.Fin 500) variance /\ le variance (Np.Fin 1000))
      \/ le variance (Np.Fin 500)).
Proof.
  cbv zeta. unfold _assess_preservation.
  destruct (NpFacts.var3_cases img_array) as [[Hnil Hnan] | [Hne [q Hq]]].
  - rewrite Hnan.
    repeat apply conj; try reflexivity; try (intros Hx; exfalso; revert Hx;
      first [apply NpFacts.nan_lt_r | apply NpFacts.nan_le_l
            | apply NpFacts.nan_eq_l]).
    intros Hpx. exfalso. now apply Hpx, NpFacts.samples_nil.
  - rewrite Hq. unfold Np.gtb.
    destruct (Np.ltb (Np.Fin 1000) (Np.Fin q)) eqn:H1000;
      [| destruct (Np.ltb (Np.Fin 500) (Np.Fin q)) eqn:H500];
      repeat apply conj; intros; try reflexivity; try (split; reflexivity);
      try (exfalso; real_order; fail).
    + left. now apply NpFacts.ltb_Fin.
    + right; left. split; [now apply NpFacts.ltb_Fin | now apply NpFacts.not_ltb_Fin].
    + right; right. now apply NpFacts.not_ltb_Fin.
Qed.

End Classifiers.

(* ===================================================================== *)
(** * Properties: the feature extractors *)
(* ===================================================================== *)

Section Extractors.
Context `{Np.Float64}.


End Extractors.

(* ===================================================================== *)
(** * Properties: analysis, batches and export *)
(* ===================================================================== *)

Section Orchestrator.
Context `{Runtime} `{Np.Float64}.

(** [Image.open] raises on every path that names no decodable file, and
    leaves the state as it was. *)
Lemma Image_open_raises (st : State) (path : string) :
  ~ decodable st path -> exists e, Image_open path st = (Raise e, st).
Proof.
  intros Hno. unfold Image_open.
  destruct (fs st !! path) as [[names | img | content] |] eqn:Hp; eauto.
  exfalso. apply Hno. exists img. exact Hp.
Qed.

Lemma Image_open_returns (st : State) (path : string) (img : Image) :
  fs st !! path = Some (Picture img) -> Image_open path st = (Ok img, st).
Proof. intros Hp. unfold Image_open. now rewrite Hp. Qed.

(** [open(path, 'w')] leaves an empty file at a writable path and raises,
    changing nothing, at any other. *)
Lemma open_w_returns (st : State) (path : string) :
  writable st path ->
  open_w path st = (Ok tt, set_fs (<[path := Text ""]> (fs st)) st).
Proof.
  intros [Hdir Hro]. unfold open_w.
  rewrite bool_decide_eq_false_2 by exact Hro.
  destruct (fs st !! path) as [[names | img | content] |] eqn:Hp;
    try reflexivity.
  exfalso. apply (Hdir names). reflexivity.
Qed.

Lemma open_w_raises (st : State) (path : string) :
  ~ writable st path -> exists e, open_w path st = (Raise e, st).
Proof.
  intros Hno. unfold open_w.
  destruct (fs st !! path) as [[names | img | content] |] eqn:Hp; eauto;
    (destruct (bool_decide (path ∈ readonly st)) eqn:Hro; [eauto|];
     exfalso; apply Hno; split;
     [intros names; congruence | now apply bool_decide_eq_false in Hro]).
Qed.

(** What [analyze_image] returns on any other path: the handler's record,
    in an unchanged state. *)
Lemma analyze_image_handles (st : State) (image_path : string) :
  ~ decodable st image_path ->
  exists message : string,
    analyze_image image_path st
    = (Ok (list_to_map [ ("error", PyStr message);
                         ("image_path", PyStr image_path) ]), st).
Proof.
  intros Hno. destruct (Image_open_raises st image_path Hno) as [e He].
  unfold analyze_image, try_except, analyze_image_try, bind. rewrite He.
  exists (str_exn e). reflexivity.
Qed.

(** C4. For a path that names no decodable image (no file at all, a file
    PIL cannot read, a directory) [analyze_image] does not raise: it
    returns a record whose keys are exactly "error" and "image_path", the
    first a message, the second the path given; the state stays as it was. *)
Theorem analyze_image_undecodable (st : State) (image_path : string) :
  ~ decodable st image_path ->
  exists (r : dict) (message : string),
    analyze_image image_path st = (Ok r, st)
    /\ dom r = {[ "error"; "image_path" ]}
    /\ r !! "error" = Some (PyStr message)
    /\ r !! "image_path" = Some (PyStr image_path).
Proof.
  intros Hno. destruct (analyze_image_handles st image_path Hno) as [msg Hr].
  eexists _, msg. split; [exact Hr|]. repeat split.
Qed.


(** What [analyze_image] returns and does on a file PIL decodes: the full
    record, stamped with the clock reading, and appended to the history. *)
Lemma analyze_image_returns (st : State) (image_path : string) (img : Image) :
  fs st !! image_path = Some (Picture img) ->
  exists r : dict,
    analyze_image image_path st
    = (Ok r,
       set_history (analysis_history (self st) ++ [r])
         (set_clock (S (clock st)) st))
    /\ dom r = {[ "timestamp"; "image_path"; "image_dimensions";
                  "image_properties"; "fossil_detection"; "classification";
                  "age_estimation"; "preservation_quality" ]}
    /\ r !! "error" = None
    /\ r !! "timestamp" = Some (PyStr (isoformat (clock st)))
    /\ r !! "image_path" = Some (PyStr image_path)
    /\ r !! "image_dimensions"
       = Some (PyDict (list_to_map
                 [ ("width", PyInt (Z.of_nat (fst (size img))));
                   ("height", PyInt (Z.of_nat (snd (size img)))) ]))
    /\ r !! "classification" = Some (PyDict (_classify_fossil (rgb img)))
    /\ r !! "age_estimation" = Some (PyDict (_estimate_age (rgb img)))
    /\ r !! "preservation_quality"
       = Some (PyDict (_assess_preservation (rgb img))).
Proof.
  intros Hp. unfold analyze_image, try_except, analyze_image_try, bind.
  rewrite (Image_open_returns _ _ _ Hp).
  assert (Hsize : size (if negb (mode img =? "RGB")%string
                        then Image_convert_RGB img else img) = size img)
    by now destruct (negb _).
  assert (Hrgb : np_array (if negb (mode img =? "RGB")%string
                           then Image_convert_RGB img else img) = rgb img)
    by now destruct (negb _).
  rewrite Hrgb.
  destruct (size (if negb (mode img =? "RGB")%string
                  then Image_convert_RGB img else img)) as [width height].
  rewrite <- Hsize. cbn [fst snd].
  eexists. split; [reflexivity|]. repeat split.
Qed.


(** C5. For a decodable image file [analyze_image] returns a record with
    no "error" key whose width and height are the dimensions of the
    decoded three-channel pixel buffer. *)
Theorem analyze_image_decodable (st : State) (image_path : string) (img : Image) :
  fs st !! image_path = Some (Picture img) ->
  well_shaped img ->
  exists (r : dict) (width height : nat),
    fst (analyze_image image_path st) = Ok r
    /\ r !! "error" = None
    /\ r !! "image_dimensions"
       = Some (PyDict (list_to_map [ ("width", PyInt (Z.of_nat width));
                                     ("height", PyInt (Z.of_nat height)) ]))
    /\ has_shape (np_array (Image_convert_RGB img)) height width.
Proof.
  intros Hp Hshape.
  destruct (analyze_image_returns st image_path img Hp)
    as (r & Hr & _ & Herr & _ & _ & Hdim & _).
  exists r, (fst (size img)), (snd (size img)).
  rewrite Hr. repeat split; try assumption.
  - apply Hshape.
  - apply Hshape.
Qed.

(** C6. When nothing exists at the directory path, [batch_analyze] does
    not raise: it returns a list of exactly one record, whose only key is
    "error" and whose message names the missing directory. *)
Theorem batch_analyze_missing_directory (st : State) (directory : string) :
  fs st !! directory = None ->
  exists r : dict,
    batch_analyze directory st = (Ok [r], st)
    /\ dom r = {[ "error" ]}
    /\ r !! "error" = Some (PyStr ("Directory not found: " +:+ directory)).
Proof.
  intros Hd. unfold batch_analyze, bind, path_exists. rewrite Hd.
  rewrite bool_decide_eq_false_2 by (intros [x Hx]; discriminate).
  eexists. split; [reflexivity|]. split; reflexivity.
Qed.

(** The classifier names a fossil type of the species table and suggests
    the three species listed there. *)
Lemma classify_fossil_species (img_array : Np.ndarray3) :
  exists (fossil_type s1 s2 s3 : string),
    _classify_fossil img_array !! "primary_type" = Some (PyStr fossil_type)
    /\ species_database !! fossil_type = Some [s1; s2; s3]
    /\ _classify_fossil img_array !! "possible_species"
       = Some (PyList [PyStr s1; PyStr s2; PyStr s3]).
Proof.
  unfold _classify_fossil.
  destruct (Np.ltb _ _); [| destruct (Np.ltb _ _)];
    eexists _, _, _, _; repeat split.
Qed.

(** C9. In every record [analyze_image] returns without an "error" key,
    the fossil type is a key of the species table and [possible_species]
    holds the three species listed under it, never the fallback
    ["Unknown"]. *)
Theorem possible_species_three (st : State) (image_path : string) (r : dict) :
  fst (analyze_image image_path st) = Ok r ->
  r !! "error" = None ->
  exists (c : dict) (fossil_type s1 s2 s3 : string),
    r !! "classification" = Some (PyDict c)
    /\ c !! "primary_type" = Some (PyStr fossil_type)
    /\ species_database !! fossil_type = Some [s1; s2; s3]
    /\ c !! "possible_species" = Some (PyList [PyStr s1; PyStr s2; PyStr s3])
    /\ PyList [PyStr s1; PyStr s2; PyStr s3] <> PyList [PyStr "Unknown"].
Proof.
  intros Hr Herr.
  destruct (fs st !! image_path) as [[names | img | content] |] eqn:Hp.
  2: { destruct (analyze_image_returns st image_path img Hp)
         as (r' & Hr' & _ & _ & _ & _ & _ & Hc & _).
       rewrite Hr' in Hr. injection Hr as <-.
       destruct (classify_fossil_species (rgb img)) as (t & s1 & s2 & s3 & Ht & Hdb & Hs).
       exists (_classify_fossil (rgb img)), t, s1, s2, s3.
       repeat split; try assumption. discriminate. }
  all: exfalso;
       assert (Hno : ~ decodable st image_path)
         by (intros [img Himg]; congruence);
       destruct (analyze_image_handles st image_path Hno) as (msg & Hr');
       rewrite Hr' in Hr; injection Hr as <-; discriminate Herr.
Qed.

(** C10. For a format string that is neither "json" nor "csv",
    [export_results] returns without raising, leaves every file as it was
    and still prints that the results were exported. *)
Theorem export_results_other_format (st : State) (output_path format : string) :
  format <> "json" -> format <> "csv" ->
  export_results output_path format st
  = (Ok tt,
     set_stdout (stdout st ++ ["Results exported to: " +:+ output_path]) st).
Proof.
  intros Hj Hc. unfold export_results, bind.
  apply String.eqb_neq in Hj, Hc. rewrite Hj, Hc. reflexivity.
Qed.

(** C1, as amended. With an empty history the csv export writes no
    header and no row, but it opens the destination for writing first: when
    the destination can be opened the call returns, the destination is
    afterwards an empty file (a file that was there has lost its content)
    and nothing else has changed. *)
Theorem export_csv_empty_history (st : State) (output_path : string) :
  analysis_history (self st) = [] ->
  writable st output_path ->
  _export_csv output_path st
  = (Ok tt, set_fs (<[output_path := Text ""]> (fs st)) st).
Proof.
  intros Hh Hw. unfold _export_csv, bind, get.
  rewrite (open_w_returns _ _ Hw). cbn [self set_fs]. rewrite Hh. reflexivity.
Qed.


(** ** The history *)

Lemma classify_primary_type (img_array : Np.ndarray3) :
  exists t, _classify_fossil img_array !! "primary_type" = Some (PyStr t).
Proof.
  unfold _classify_fossil.
  destruct (Np.ltb _ _); [| destruct (Np.ltb _ _)]; eexists; reflexivity.
Qed.

Lemma preservation_quality_rating (img_array : Np.ndarray3) :
  exists q, _assess_preservation img_array !! "quality_rating" = Some (PyStr q).
Proof.
  unfold _assess_preservation.
  destruct (Np.gtb _ _); [| destruct (Np.gtb _ _)]; eexists; reflexivity.
Qed.

(** The record of a decodable file is one the history files. *)
Lemma analyze_image_filed (st : State) (image_path : string) (img : Image) :
  fs st !! image_path = Some (Picture img) ->
  exists r : dict,
    analyze_image image_path st
    = (Ok r,
       set_history (analysis_history (self st) ++ [r])
         (set_clock (S (clock st)) st))
    /\ filed r.
Proof.
  intros Hp.
  destruct (analyze_image_returns st image_path img Hp)
    as (r & Hr & _ & Herr & Ht & Hi & _ & Hc & Ha & Hq).
  exists r. split; [exact Hr|]. split; [exact Herr|].
  destruct (classify_primary_type (rgb img)) as [t Hty].
  destruct (preservation_quality_rating (rgb img)) as [q Hql].
  unfold csv_row. rewrite Ht, Hi, Hc, Ha, Hq, Hty, Hql. 
  eexists. reflexivity.
Qed.


(** A property of the analyzer alone is kept by whatever leaves the
    analyzer as it is. *)
Lemma preserves_bind {A B} (inv : State -> Prop) (m : M A) (k : A -> M B) :
  preserves inv m -> (forall a, preserves inv (k a)) -> preserves inv (bind m k).
Proof.
  intros Hm Hk st Hst. unfold bind. specialize (Hm st Hst).
  destruct (m st) as [[a | e] st']; [apply Hk|]; exact Hm.
Qed.

Lemma preserves_ret {A} (inv : State -> Prop) (a : A) : preserves inv (ret a).
Proof. intros st Hst. exact Hst. Qed.

Lemma preserves_raise {A} (inv : State -> Prop) (e : exn) :
  preserves inv (raise (A := A) e).
Proof. intros st Hst. exact Hst. Qed.


Lemma all_filed_self (st st' : State) :
  self st' = self st -> all_filed st -> all_filed st'.
Proof. unfold all_filed. now intros ->. Qed.

(** A computation that leaves the analyzer as it is keeps the history. *)
Lemma keeps_self_preserves {A} (m : M A) :
  (forall st, self (snd (m st)) = self st) -> preserves all_filed m.
Proof. intros Hm st. apply all_filed_self, Hm. Qed.

Lemma print_keeps (line : string) : preserves all_filed (print line).
Proof. now apply keeps_self_preserves. Qed.

Lemma open_w_keeps (path : string) : preserves all_filed (open_w path).
Proof.
  apply keeps_self_preserves. intros st. unfold open_w.
  destruct (fs st !! path) as [[| |]|]; try reflexivity;
    now destruct (bool_decide _).
Qed.

Lemma file_write_keeps (path text : string) :
  preserves all_filed (file_write path text).
Proof.
  apply keeps_self_preserves. intros st. unfold file_write, modify. simpl.
  now destruct (fs st !! path) as [[| |]|].
Qed.

Lemma dict_getitem_keeps (d : dict) (key : string) :
  preserves all_filed (dict_getitem d key).
Proof.
  unfold dict_getitem.
  destruct (d !! key); [apply preserves_ret | apply preserves_raise].
Qed.

Lemma getitem_keeps (v : pyval) (key : string) :
  preserves all_filed (getitem v key).
Proof.
  destruct v; try apply preserves_raise. apply dict_getitem_keeps.
Qed.

Create HintDb keeps.
#[local] Hint Resolve preserves_ret preserves_raise print_keeps open_w_keeps
  file_write_keeps dict_getitem_keeps getitem_keeps : keeps.

Ltac keeps :=
  repeat first
    [ apply preserves_bind; [| intros ?]
    | solve [auto with keeps] ].

Lemma csv_write_result_keeps (output_path : string) (r : dict) :
  preserves all_filed (csv_write_result output_path r).
Proof.
  unfold csv_write_result. destruct (negb _); keeps.
Qed.

Lemma for_each_keeps {A} (xs : list A) (body : A -> M unit) :
  (forall x, preserves all_filed (body x)) ->
  preserves all_filed (for_each xs body).
Proof.
  intros Hbody. induction xs as [|x xs IH]; simpl; keeps; auto.
Qed.

Lemma export_csv_keeps (output_path : string) :
  preserves all_filed (_export_csv output_path).
Proof.
  unfold _export_csv. keeps.
  - now apply keeps_self_preserves.
  - destruct (analysis_history _) as [|r rs]; [keeps|].
    apply preserves_bind; [auto with keeps | intros _].
    apply for_each_keeps, csv_write_result_keeps.
Qed.

Lemma export_json_keeps (output_path : string) :
  preserves all_filed (export_json output_path).
Proof.
  unfold export_json. keeps.
  - now apply keeps_self_preserves.
  - destruct (json_dump _) as [text [e|]]; keeps.
Qed.

Lemma export_results_keeps (output_path format : string) :
  preserves all_filed (export_results output_path format).
Proof.
  unfold export_results. keeps.
  destruct (_ =? _)%string; [apply export_json_keeps|].
  destruct (_ =? _)%string; [apply export_csv_keeps | keeps].
Qed.

Lemma analyze_image_keeps (image_path : string) :
  preserves all_filed (analyze_image image_path).
Proof.
  intros st Hst.
  destruct (fs st !! image_path) as [[names | img | content] |] eqn:Hp.
  2: { destruct (analyze_image_filed st image_path img Hp) as (r & -> & Hr).
       unfold all_filed in *. simpl. apply Forall_app. split; [exact Hst|].
       now constructor. }
  all: assert (Hno : ~ decodable st image_path)
         by (intros [img Himg]; congruence);
       destruct (analyze_image_handles st image_path Hno) as (msg & ->);
       exact Hst.
Qed.

Lemma batch_loop_keeps (directory : string) (names : list string)
    (results : list dict) :
  preserves all_filed (batch_loop directory names results).
Proof.
  revert results. induction names as [|name names IH]; intros results; simpl.
  - keeps.
  - destruct (bool_decide _); [| apply IH].
    apply preserves_bind; [apply print_keeps | intros _].
    apply preserves_bind; [apply analyze_image_keeps | intros r].
    apply IH.
Qed.

Lemma batch_analyze_keeps (directory : string) :
  preserves all_filed (batch_analyze directory).
Proof.
  unfold batch_analyze. keeps.
  - now apply keeps_self_preserves.
  - destruct (negb _); [apply preserves_ret|].
    apply preserves_bind; [| intros names; apply batch_loop_keeps].
    apply keeps_self_preserves. intros st. unfold iterdir.
    now destruct (fs st !! directory) as [[| |]|].
Qed.

Lemma after_keeps (c : call) : preserves all_filed (fun st => (Ok tt, after c st)).
Proof.
  intros st Hst. destruct c; simpl.
  - now apply analyze_image_keeps.
  - now apply batch_analyze_keeps.
  - now apply export_results_keeps.
Qed.

Lemma run_keeps (calls : list call) (st : State) :
  all_filed st -> all_filed (run calls st).
Proof.
  revert st. induction calls as [|c calls IH]; intros st Hst; simpl; [exact Hst|].
  apply IH. now apply (after_keeps c st).
Qed.

Lemma started_all_filed files locked out ticks model :
  all_filed (started files locked out ticks model).
Proof. constructor. Qed.


(** On a filed record the export loop takes the writing branch and writes
    the line of the record. *)
Lemma csv_write_result_filed (output_path : string) (r : dict) :
  filed r ->
  bool_decide ("error" ∈ dom r) = false
  /\ exists line,
       csv_row r = Some line
       /\ forall st, csv_write_result output_path r st
                     = file_write output_path line st.
Proof.
  intros [Herr [line Hline]].
  assert (Hskip : bool_decide ("error" ∈ dom r) = false)
    by (apply bool_decide_eq_false_2, not_elem_of_dom, Herr).
  split; [exact Hskip|]. exists line. split; [exact Hline|]. intros st.
  unfold csv_write_result. rewrite Hskip. cbn [negb].
  unfold csv_row in Hline. unfold bind, dict_getitem, getitem.
  destruct (r !! "timestamp") as [t|]; [|discriminate].
  destruct (r !! "image_path") as [p|]; [|discriminate].
  destruct (r !! "classification") as [[| | | | | |c]|]; try discriminate.
  destruct (r !! "age_estimation") as [[| | | | | |a]|]; try discriminate.
  destruct (r !! "preservation_quality") as [[| | | | | |q]|]; try discriminate.
  unfold ret, dict_getitem.
  destruct (c !! "primary_type") as [ty|]; [|discriminate].
  destruct (a !! "estimated_age_million_years") as [age|]; [|discriminate].
  destruct (q !! "quality_rating") as [ql|]; [|discriminate].
  injection Hline as <-. reflexivity.
Qed.

Lemma append_empty_r (s : string) : s +:+ "" = s.
Proof.
  induction s as [|a s IH]; [reflexivity|].
  change (String a (s +:+ "") = String a s). now rewrite IH.
Qed.

Lemma append_assoc (s t u : string) : (s +:+ t) +:+ u = s +:+ (t +:+ u).
Proof.
  induction s as [|a s IH]; [reflexivity|].
  change (String a ((s +:+ t) +:+ u) = String a (s +:+ (t +:+ u))).
  now rewrite IH.
Qed.

Lemma concat_cons (line : string) (lines : list string) :
  String.concat "" (line :: lines) = line +:+ String.concat "" lines.
Proof.
  destruct lines as [|l ls]; [|reflexivity].
  symmetry. apply append_empty_r.
Qed.

Lemma set_fs_same (st : State) : set_fs (fs st) st = st.
Proof. now destruct st. Qed.

Lemma set_fs_twice (f g : filesystem) (st : State) :
  set_fs f (set_fs g st) = set_fs f st.
Proof. reflexivity. Qed.

(** [f.write(text)] puts the text after what the file holds. *)
Lemma file_write_appends (st : State) (path old text : string) :
  fs st !! path = Some (Text old) ->
  file_write path text st
  = (Ok tt, set_fs (<[path := Text (old +:+ text)]> (fs st)) st).
Proof. intros Hp. unfold file_write, modify. now rewrite Hp. Qed.

(** The export loop over filed records writes the line of every one of
    them, in order, after what the file holds. *)
Lemma for_each_csv_lines (output_path : string) (rs : list dict) :
  Forall filed rs ->
  forall (st : State) (old : string),
    fs st !! output_path = Some (Text old) ->
    exists lines : list string,
      Forall2 (fun r line => csv_row r = Some line) rs lines
      /\ for_each rs (csv_write_result output_path) st
         = (Ok tt,
            set_fs (<[output_path := Text (old +:+ String.concat "" lines)]>
                      (fs st)) st).
Proof.
  induction 1 as [|r rs Hr Hrs IH]; intros st old Hold.
  - exists []. split; [constructor|]. simpl.
    rewrite append_empty_r, insert_id by exact Hold.
    now rewrite set_fs_same.
  - destruct (csv_write_result_filed output_path r Hr)
      as (_ & line & Hline & Hwrite).
    destruct (IH (set_fs (<[output_path := Text (old +:+ line)]> (fs st)) st)
                 (old +:+ line)) as (lines & Hlines & Hloop).
    { simpl. apply lookup_insert_eq. }
    exists (line :: lines). split; [now constructor|].
    cbn [for_each]. unfold bind.
    rewrite Hwrite, (file_write_appends _ _ _ _ Hold), Hloop.
    cbn [fs set_fs]. rewrite insert_insert_eq, append_assoc.
    now rewrite concat_cons.
Qed.

(** With a history of filed records the csv export returns and leaves at
    the destination the header and then one line for every record. *)
Lemma export_csv_writes_every_record (st : State) (output_path : string) :
  all_filed st ->
  analysis_history (self st) <> [] ->
  writable st output_path ->
  exists lines : list string,
    Forall2 (fun r line => csv_row r = Some line)
            (analysis_history (self st)) lines
    /\ _export_csv output_path st
       = (Ok tt,
          set_fs (<[output_path :=
                      Text (csv_line csv_fieldnames +:+ String.concat "" lines)]>
                    (fs st)) st).
Proof.
  intros Hall Hne Hw. unfold all_filed in Hall.
  unfold _export_csv, bind, get. rewrite (open_w_returns _ _ Hw).
  cbn [self set_fs].
  destruct (analysis_history (self st)) as [|r rs] eqn:Hh; [congruence|].
  rewrite (file_write_appends _ _ "" _) by (simpl; apply lookup_insert_eq).
  destruct (for_each_csv_lines output_path (r :: rs) Hall
              (set_fs (<[output_path := Text ("" +:+ csv_line csv_fieldnames)]>
                         (fs (set_fs (<[output_path := Text ""]> (fs st)) st)))
                      (set_fs (<[output_path := Text ""]> (fs st)) st))
              (csv_line csv_fieldnames))
    as (lines & Hlines & Hloop).
  { simpl. apply lookup_insert_eq. }
  exists lines. split; [exact Hlines|]. rewrite Hloop.
  cbn [fs set_fs]. now rewrite !insert_insert_eq.
Qed.


(** C8. A call of [analyze_image] appends exactly one record, one with no
    "error" key, when the image decodes, and leaves the history as it was
    when it does not.  So after any sequence of calls on a fresh analyzer
    no record of the history has an "error" key, and the export loop takes
    the writing branch at every record: the skip is never taken, and the
    csv file holds a line for every record of the history. *)
Theorem history_holds_no_error_record :
  (forall (st : State) (image_path : string),
     (decodable st image_path ->
      exists r : dict,
        fst (analyze_image image_path st) = Ok r
        /\ no_error r
        /\ analysis_history (self (snd (analyze_image image_path st)))
           = analysis_history (self st) ++ [r])
     /\ (~ decodable st image_path ->
         analysis_history (self (snd (analyze_image image_path st)))
         = analysis_history (self st)))
  /\ (forall (files : filesystem) (locked : gset string) (out : list string)
             (ticks : nat) (model : option string) (calls : list call),
        let st := run calls (started files locked out ticks model) in
        Forall no_error (analysis_history (self st))
        /\ forall (output_path : string) (r : dict),
             r ∈ analysis_history (self st) ->
             bool_decide ("error" ∈ dom r) = false
             /\ exists line,
                  csv_row r = Some line
                  /\ forall st1, csv_write_result output_path r st1
                                 = file_write output_path line st1)
  /\ (forall (files : filesystem) (locked : gset string) (out : list string)
             (ticks : nat) (model : option string) (calls : list call)
             (output_path : string),
        let st := run calls (started files locked out ticks model) in
        analysis_history (self st) <> [] ->
        writable st output_path ->
        exists lines : list string,
          length lines = length (analysis_history (self st))
          /\ _export_csv output_path st
             = (Ok tt,
                set_fs (<[output_path :=
                            Text (csv_line csv_fieldnames
                                  +:+ String.concat "" lines)]> (fs st)) st)).
Proof.
  split; [| split].
  - intros st image_path. split.
    + intros [img Himg].
      destruct (analyze_image_filed st image_path img Himg) as (r & Hr & Hf).
      exists r. rewrite Hr. repeat split. apply Hf.
    + intros Hno.
      destruct (analyze_image_handles st image_path Hno) as (msg & ->).
      reflexivity.
  - intros files locked out ticks model calls st.
    assert (Hall : all_filed st)
      by apply run_keeps, started_all_filed.
    split.
    + unfold all_filed in Hall. eapply Forall_impl; [exact Hall|].
      intros r [Hr _]. exact Hr.
    + intros output_path r Hin. apply csv_write_result_filed.
      unfold all_filed in Hall. rewrite Forall_forall in Hall. now apply Hall.
  - intros files locked out ticks model calls output_path st Hne Hw.
    assert (Hall : all_filed st)
      by apply run_keeps, started_all_filed.
    destruct (export_csv_writes_every_record st output_path Hall Hne Hw)
      as (lines & Hlines & Hrun).
    exists lines. split; [|exact Hrun].
    symmetry. exact (Forall2_length _ _ _ Hlines).
Qed.

End Orchestrator.

(* ===================================================================== *)
(** * The properties at work on the sample data *)
(* ===================================================================== *)

Section Samples.
Import Sample.

(** A brightness of exactly 100 is Petrified Wood, one of exactly 150
    Shell Fragment. *)
Lemma classify_fossil_brackets_witness :
  (_classify_fossil (rgb wood) !! "primary_type" = Some (PyStr "Petrified Wood")
   /\ _classify_fossil (rgb wood) !! "geological_period" = Some (PyStr "Paleozoic"))
  /\ (_classify_fossil shell !! "primary_type" = Some (PyStr "Shell Fragment")
      /\ _classify_fossil shell !! "geological_period" = Some (PyStr "Cenozoic")).
Proof.
  split.
  - apply (classify_fossil_brackets (rgb wood)).
    exists (Q2R 100), (Q2R 100). repeat split.
  - apply (classify_fossil_brackets shell).
    exists (Q2R 150), (Q2R 150). repeat split.
Defined.

(** A variance of exactly 1000 is Good with 7.5, one of exactly 500 Fair
    with 5.8. *)
Lemma assess_preservation_brackets_witness :
  (_assess_preservation variance_1000 !! "quality_rating" = Some (PyStr "Good")
   /\ _assess_preservation variance_1000 !! "preservation_score"
      = Some (PyFloat (Np.Fin 7.5%Q)))
  /\ (_assess_preservation variance_500 !! "quality_rating" = Some (PyStr "Fair")
      /\ _assess_preservation variance_500 !! "preservation_score"
         = Some (PyFloat (Np.Fin 5.8%Q))).
Proof.
  split.
  - apply (assess_preservation_brackets variance_1000).
    exists (Q2R 1000), (Q2R 1000). repeat split.
  - apply (assess_preservation_brackets variance_500).
    exists (Q2R 500), (Q2R 500). repeat split.
Defined.


(** Double precision at the thresholds.  The variance of [speckled] is
    1000 over the rationals; numpy returns the next float64 above and the
    rating is Excellent.  The red channel of [banded] has standard
    deviation 50 over the reals; numpy returns a float64 above and the
    flag is set. *)
Example speckled_is_excellent :
  Np.var3 speckled = Np.Fin (4398046511104001 # 4398046511104)
  /\ _assess_preservation speckled !! "quality_rating" = Some (PyStr "Excellent").
Proof. split; reflexivity. Qed.

Example banded_is_mineralized :
  Np.std_channel Np.red banded = Np.Fin (7036874417766401 # 140737488355328)
  /\ _detect_mineralization banded = true.
Proof. split; reflexivity. Qed.

(** The grey values of [plain] are all the same, yet their mean is
    rounded and the texture numpy returns is not zero; no flag is set. *)
Example plain_texture :
  _analyze_texture plain = Np.Fin (1 # 281474976710656)
  /\ _detect_mineralization plain = false
  /\ _identify_bone_structure plain = false.
Proof. repeat split. Qed.

(** A file that is no image gives the error record. *)
Lemma analyze_image_undecodable_witness :
  ~ decodable world "fossils/notes.txt"
  /\ exists (r : dict) (message : string),
       analyze_image "fossils/notes.txt" world = (Ok r, world)
       /\ dom r = {[ "error"; "image_path" ]}
       /\ r !! "error" = Some (PyStr message)
       /\ r !! "image_path" = Some (PyStr "fossils/notes.txt").
Proof.
  assert (Hno : ~ decodable world "fossils/notes.txt")
    by (intros [img Himg]; vm_compute in Himg; discriminate Himg).
  split; [exact Hno|].
  apply (analyze_image_undecodable world "fossils/notes.txt" Hno).
Defined.

(** The grey-scale image [wood] is converted and measured 1 by 1. *)
Lemma analyze_image_decodable_witness :
  exists (r : dict) (width height : nat),
    fst (analyze_image "fossils/wood.JPG" world) = Ok r
    /\ r !! "error" = None
    /\ r !! "image_dimensions"
       = Some (PyDict (list_to_map [ ("width", PyInt (Z.of_nat width));
                                     ("height", PyInt (Z.of_nat height)) ]))
    /\ has_shape (np_array (Image_convert_RGB wood)) height width.
Proof.
  apply (analyze_image_decodable world "fossils/wood.JPG" wood).
  - reflexivity.
  - split; [reflexivity | repeat constructor].
Defined.

Lemma batch_analyze_missing_directory_witness :
  exists r : dict,
    batch_analyze "museum" world = (Ok [r], world)
    /\ dom r = {[ "error" ]}
    /\ r !! "error" = Some (PyStr "Directory not found: museum").
Proof.
  apply (batch_analyze_missing_directory world "museum"). reflexivity.
Defined.

Lemma possible_species_three_witness :
  exists (r c : dict) (fossil_type s1 s2 s3 : string),
    fst (analyze_image "fossils/bone.png" world) = Ok r
    /\ r !! "classification" = Some (PyDict c)
    /\ c !! "primary_type" = Some (PyStr fossil_type)
    /\ species_database !! fossil_type = Some [s1; s2; s3]
    /\ c !! "possible_species" = Some (PyList [PyStr s1; PyStr s2; PyStr s3])
    /\ PyList [PyStr s1; PyStr s2; PyStr s3] <> PyList [PyStr "Unknown"].
Proof.
  destruct (analyze_image "fossils/bone.png" world) as [[r | e] st] eqn:Hrun;
    [| vm_compute in Hrun; discriminate Hrun].
  assert (Herr : r !! "error" = None)
    by (vm_compute in Hrun; injection Hrun as <- _; reflexivity).
  destruct (possible_species_three world "fossils/bone.png" r)
    as (c & t & s1 & s2 & s3 & Hc);
    [rewrite Hrun; reflexivity | exact Herr |].
  exists r, c, t, s1, s2, s3. split; [reflexivity | exact Hc].
Defined.

Lemma export_results_other_format_witness :
  export_results "results.xml" "xml" world
  = (Ok tt, set_stdout ["Results exported to: results.xml"] world).
Proof.
  apply (export_results_other_format world "results.xml" "xml"); discriminate.
Defined.

Lemma export_csv_empty_history_witness :
  _export_csv "results.csv" world
  = (Ok tt, set_fs (<["results.csv" := Text ""]> (fs world)) world).
Proof.
  apply (export_csv_empty_history world "results.csv").
  - reflexivity.
  - split.
    + intros names Hdir. vm_compute in Hdir. discriminate Hdir.
    + cbn [world started readonly]. intros Hin.
      apply elem_of_singleton in Hin. discriminate Hin.
Defined.

(** C1 as first stated does not hold: [results.csv] held text before the
    export of an empty history and is empty after it. *)
Lemma export_csv_empty_history_truncates :
  ~ (forall (rt : Runtime) (st : State) (output_path : string),
       analysis_history (self st) = [] ->
       fs (snd (_export_csv output_path st)) !! output_path
       = fs st !! output_path).
Proof.
  intros Hclaim.
  specialize (Hclaim runtime world "results.csv" eq_refl).
  vm_compute in Hclaim. discriminate Hclaim.
Qed.

(** What a batch over the sample directory and a csv export leave in
    [results.csv]: the header and the lines of the two images. *)
Lemma sample_export :
  fs (run [ Batch "fossils"; Export "results.csv" "csv" ] world) !! "results.csv"
  = Some (Text
      (csv_line csv_fieldnames
       +:+ csv_line [ "2024-05-01T12:00:00"; "fossils/bone.png";
                      "Permineralized Bone"; "65-230"; "Excellent" ]
       +:+ csv_line [ "2024-05-01T12:00:01"; "fossils/wood.JPG";
                      "Petrified Wood"; "65-230"; "Fair" ])).
Proof. vm_compute. reflexivity. Qed.

(** After a batch over the sample directory, a failed analysis and an
    export, the history holds the two records of the two images. *)
Lemma history_holds_no_error_record_witness :
  let st := run [ Batch "fossils"; Analyze "fossils/notes.txt";
                  Export "results.csv" "csv" ] world in
  Forall no_error (analysis_history (self st))
  /\ length (analysis_history (self st)) = 2%nat.
Proof.
  split.
  - apply (proj1 (proj2 history_holds_no_error_record)
             files {[ "archive.csv" ]} [] 0%nat None).
  - reflexivity.
Defined.

End Samples.

(* ===================================================================== *)
(** * Further properties: what a call leaves alone *)
(* ===================================================================== *)

Import Cover.

Section Frames.
Context `{Runtime} `{Np.Float64}.

(** ** Relations kept along a computation *)

Section Steps.
Variable rel : State -> State -> Prop.
Hypothesis rel_refl : forall st, rel st st.
Hypothesis rel_trans : forall st1 st2 st3, rel st1 st2 -> rel st2 st3 -> rel st1 st3.

Lemma steps_ret {A} (a : A) : steps rel (ret a).
Proof. intros st. apply rel_refl. Qed.

Lemma steps_raise {A} (e : exn) : steps rel (raise (A := A) e).
Proof. intros st. apply rel_refl. Qed.

Lemma steps_bind {A B} (m : M A) (k : A -> M B) :
  steps rel m -> (forall a, steps rel (k a)) -> steps rel (bind m k).
Proof.
  intros Hm Hk st. unfold bind. specialize (Hm st).
  destruct (m st) as [[a | e] st1]; [|exact Hm].
  eapply rel_trans; [exact Hm | apply Hk].
Qed.

Lemma steps_try_except {A} (m : M A) (h : exn -> M A) :
  steps rel m -> (forall e, steps rel (h e)) -> steps rel (try_except m h).
Proof.
  intros Hm Hh st. unfold try_except. specialize (Hm st).
  destruct (m st) as [[a | e] st1]; [exact Hm|].
  eapply rel_trans; [exact Hm | apply Hh].
Qed.

Lemma steps_for_each {A} (xs : list A) (body : A -> M unit) :
  (forall x, steps rel (body x)) -> steps rel (for_each xs body).
Proof.
  intros Hbody. induction xs as [|x xs IH]; simpl.
  - apply steps_ret.
  - apply steps_bind; [apply Hbody | intros _; exact IH].
Qed.

(** A computation that never changes the state. *)
Lemma steps_pure {A} (m : M A) :
  (forall st, snd (m st) = st) -> steps rel m.
Proof. intros Hm st. rewrite Hm. apply rel_refl. Qed.

Lemma steps_dict_getitem (d : dict) (key : string) :
  steps rel (dict_getitem d key).
Proof.
  unfold dict_getitem. destruct (d !! key); [apply steps_ret | apply steps_raise].
Qed.

Lemma steps_getitem (v : pyval) (key : string) : steps rel (getitem v key).
Proof. destruct v; try apply steps_raise. apply steps_dict_getitem. Qed.

End Steps.

Lemma same_files_refl st : same_files st st.
Proof. now split. Qed.

Lemma same_files_trans st1 st2 st3 :
  same_files st1 st2 -> same_files st2 st3 -> same_files st1 st3.
Proof. intros [H1 H2] [H3 H4]. split; congruence. Qed.

Lemma only_wrote_refl path st : only_wrote path st st.
Proof. now repeat split. Qed.

Lemma only_wrote_trans path st1 st2 st3 :
  only_wrote path st1 st2 -> only_wrote path st2 st3 -> only_wrote path st1 st3.
Proof.
  intros (Hs & Hc & Hr & Hf) (Hs' & Hc' & Hr' & Hf').
  repeat split; try congruence.
  intros p Hp. rewrite Hf', Hf by exact Hp. reflexivity.
Qed.

Lemma grew_refl st : grew st st.
Proof. unfold grew. reflexivity. Qed.

Lemma grew_trans st1 st2 st3 : grew st1 st2 -> grew st2 st3 -> grew st1 st3.
Proof. unfold grew. intros H1 H2. now transitivity (analysis_history (self st2)). Qed.

(** ** Analysis never touches a file *)

Lemma analyze_image_same_files (image_path : string) :
  steps same_files (analyze_image image_path).
Proof.
  intros st.
  destruct (fs st !! image_path) as [[names | img | content] |] eqn:Hp.
  2: { destruct (analyze_image_returns st image_path img Hp) as (r & -> & _).
       now split. }
  all: assert (Hno : ~ decodable st image_path)
         by (intros [img Himg]; congruence);
       destruct (analyze_image_handles st image_path Hno) as (msg & ->);
       apply same_files_refl.
Qed.

Lemma print_same_files (line : string) : steps same_files (print line).
Proof. intros st. now split. Qed.

Lemma batch_loop_same_files (directory : string) (names : list string)
    (results : list dict) :
  steps same_files (batch_loop directory names results).
Proof.
  revert results. induction names as [|name names IH]; intros results; simpl.
  - apply (steps_ret _ same_files_refl).
  - destruct (bool_decide _); [| apply IH].
    apply (steps_bind _ same_files_trans); [apply print_same_files | intros _].
    apply (steps_bind _ same_files_trans);
      [apply analyze_image_same_files | intros r; apply IH].
Qed.

Lemma batch_analyze_same_files (directory : string) :
  steps same_files (batch_analyze directory).
Proof.
  unfold batch_analyze. apply (steps_bind _ same_files_trans).
  - now apply (steps_pure _ same_files_refl).
  - intros found. destruct (negb found); [apply (steps_ret _ same_files_refl)|].
    apply (steps_bind _ same_files_trans).
    + apply (steps_pure _ same_files_refl). intros st. unfold iterdir.
      now destruct (fs st !! directory) as [[| |]|].
    + intros names. apply batch_loop_same_files.
Qed.

(** X1. Whatever the path and whatever the outcome, [analyze_image] and
    [batch_analyze] leave every file and every permission as they were. *)
Theorem analysis_writes_no_file (st : State) (path : string) :
  same_files st (snd (analyze_image path st))
  /\ same_files st (snd (batch_analyze path st)).
Proof.
  split; [apply analyze_image_same_files | apply batch_analyze_same_files].
Qed.

(** ** Export touches the destination only *)

Lemma open_w_only_wrote (path : string) : steps (only_wrote path) (open_w path).
Proof.
  intros st. unfold open_w.
  destruct (fs st !! path) as [[| |]|]; try apply only_wrote_refl;
    (destruct (bool_decide _); [apply only_wrote_refl|]);
    repeat split; intros p Hp; simpl; now rewrite lookup_insert_ne.
Qed.

Lemma file_write_only_wrote (path text : string) :
  steps (only_wrote path) (file_write path text).
Proof.
  intros st. unfold file_write, modify. simpl.
  destruct (fs st !! path) as [[| |]|]; try apply only_wrote_refl.
  repeat split. intros p Hp. simpl. now rewrite lookup_insert_ne.
Qed.

Lemma print_only_wrote (path line : string) :
  steps (only_wrote path) (print line).
Proof. intros st. now repeat split. Qed.

Lemma csv_write_result_only_wrote (path : string) (r : dict) :
  steps (only_wrote path) (csv_write_result path r).
Proof.
  unfold csv_write_result.
  destruct (negb _); [| apply (steps_ret _ (only_wrote_refl path))].
  repeat (apply (steps_bind _ (only_wrote_trans path));
          [first [ apply (steps_dict_getitem _ (only_wrote_refl path))
                 | apply (steps_getitem _ (only_wrote_refl path)) ]
          | intros ?]).
  apply file_write_only_wrote.
Qed.

Lemma export_csv_only_wrote (path : string) :
  steps (only_wrote path) (_export_csv path).
Proof.
  unfold _export_csv.
  apply (steps_bind _ (only_wrote_trans path)); [apply open_w_only_wrote | intros _].
  apply (steps_bind _ (only_wrote_trans path)).
  - now apply (steps_pure _ (only_wrote_refl path)).
  - intros st. destruct (analysis_history (self st)) as [|r rs].
    + apply (steps_ret _ (only_wrote_refl path)).
    + apply (steps_bind _ (only_wrote_trans path));
        [apply file_write_only_wrote | intros _].
      apply (steps_for_each _ (only_wrote_refl path) (only_wrote_trans path)).
      intros x. apply csv_write_result_only_wrote.
Qed.

Lemma export_json_only_wrote (path : string) :
  steps (only_wrote path) (export_json path).
Proof.
  unfold export_json.
  apply (steps_bind _ (only_wrote_trans path)); [apply open_w_only_wrote | intros _].
  apply (steps_bind _ (only_wrote_trans path)).
  - now apply (steps_pure _ (only_wrote_refl path)).
  - intros st. destruct (json_dump _) as [text failure].
    apply (steps_bind _ (only_wrote_trans path));
      [apply file_write_only_wrote | intros _].
    destruct failure; [apply (steps_raise _ (only_wrote_refl path))
                      | apply (steps_ret _ (only_wrote_refl path))].
Qed.

Lemma export_results_only_wrote (output_path format : string) :
  steps (only_wrote output_path) (export_results output_path format).
Proof.
  unfold export_results.
  apply (steps_bind _ (only_wrote_trans output_path));
    [| intros _; apply print_only_wrote].
  destruct (_ =? _)%string; [apply export_json_only_wrote|].
  destruct (_ =? _)%string; [apply export_csv_only_wrote|].
  apply (steps_ret _ (only_wrote_refl output_path)).
Qed.

(** X2. Whatever the format and whatever the outcome, [export_results]
    leaves the analyzer with its history, the clock, the permissions and
    every file but the destination as they were. *)
Theorem export_touches_destination_only (st : State)
    (output_path format : string) :
  only_wrote output_path st (snd (export_results output_path format st)).
Proof. apply export_results_only_wrote. Qed.

(** ** The history only grows *)

Lemma analyze_image_grew (image_path : string) :
  steps grew (analyze_image image_path).
Proof.
  intros st. unfold grew.
  destruct (fs st !! image_path) as [[names | img | content] |] eqn:Hp.
  2: { destruct (analyze_image_returns st image_path img Hp) as (r & -> & _).
       simpl. now apply prefix_app_r. }
  all: assert (Hno : ~ decodable st image_path)
         by (intros [img Himg]; congruence);
       destruct (analyze_image_handles st image_path Hno) as (msg & ->);
       reflexivity.
Qed.

Lemma same_analyzer_grew {A} (m : M A) :
  (forall st, self (snd (m st)) = self st) -> steps grew m.
Proof. intros Hm st. unfold grew. now rewrite Hm. Qed.

Lemma batch_loop_grew (directory : string) (names : list string)
    (results : list dict) :
  steps grew (batch_loop directory names results).
Proof.
  revert results. induction names as [|name names IH]; intros results; simpl.
  - apply (steps_ret _ grew_refl).
  - destruct (bool_decide _); [| apply IH].
    apply (steps_bind _ grew_trans); [now apply same_analyzer_grew | intros _].
    apply (steps_bind _ grew_trans);
      [apply analyze_image_grew | intros r; apply IH].
Qed.

Lemma batch_analyze_grew (directory : string) :
  steps grew (batch_analyze directory).
Proof.
  unfold batch_analyze. apply (steps_bind _ grew_trans).
  - now apply same_analyzer_grew.
  - intros found. destruct (negb found); [apply (steps_ret _ grew_refl)|].
    apply (steps_bind _ grew_trans).
    + apply same_analyzer_grew. intros st. unfold iterdir.
      now destruct (fs st !! directory) as [[| |]|].
    + intros names. apply batch_loop_grew.
Qed.

Lemma after_grew (c : call) (st : State) : grew st (after c st).
Proof.
  destruct c; simpl.
  - apply analyze_image_grew.
  - apply batch_analyze_grew.
  - unfold grew.
    destruct (export_results_only_wrote output_path format st) as [-> _].
    reflexivity.
Qed.

(** X3. Whatever a client calls and in whatever state, the history it had
    is still there afterwards, in front of what was added: no call
    removes, replaces or reorders a record. *)
Theorem history_only_grows (calls : list call) (st : State) :
  analysis_history (self st) `prefix_of` analysis_history (self (run calls st)).
Proof.
  revert st. induction calls as [|c calls IH]; intros st; simpl; [reflexivity|].
  transitivity (analysis_history (self (after c st))); [apply after_grew | apply IH].
Qed.

End Frames.

(* ===================================================================== *)
(** * Further properties: batches *)
(* ===================================================================== *)

Section Batches.
Context `{Runtime} `{Np.Float64}.

(** The two outcomes of [analyze_image], state and record together. *)
Lemma analyze_image_outcome (st : State) (image_path : string) :
  exists r : dict,
    r !! "image_path" = Some (PyStr image_path)
    /\ ((succeeded r = true
         /\ r !! "timestamp" = Some (PyStr (isoformat (clock st)))
         /\ analyze_image image_path st
            = (Ok r, set_history (analysis_history (self st) ++ [r])
                       (set_clock (S (clock st)) st)))
        \/ (succeeded r = false /\ analyze_image image_path st = (Ok r, st))).
Proof.
  destruct (fs st !! image_path) as [[names | img | content] |] eqn:Hp.
  2: { destruct (analyze_image_returns st image_path img Hp)
         as (r & Hr & _ & Herr & Ht & Hi & _).
       exists r. split; [exact Hi|]. left. repeat split; try assumption.
       unfold succeeded. now apply bool_decide_eq_true_2. }
  all: assert (Hno : ~ decodable st image_path)
         by (intros [img Himg]; congruence);
       destruct (analyze_image_handles st image_path Hno) as (msg & Hr);
       eexists; split; [| right; split; [| exact Hr]]; reflexivity.
Qed.

(** The loop of [batch_analyze]: one result for every image name, in the
    order of the listing; a line printed for each; the results without an
    "error" key appended to the history, one clock reading each. *)
Lemma batch_loop_results (directory : string) (names : list string) :
  forall (results : list dict) (st : State),
  exists (rs : list dict) (st' : State),
    batch_loop directory names results st = (Ok (results ++ rs), st')
    /\ Forall2 (fun name r =>
                  r !! "image_path" = Some (PyStr (path_join directory name)))
               (List.filter is_image_name names) rs
    /\ stdout st'
       = stdout st ++ map (fun name => "Analyzing: " +:+ name)
                          (List.filter is_image_name names)
    /\ analysis_history (self st')
       = analysis_history (self st) ++ List.filter succeeded rs
    /\ clock st' = (clock st + length (List.filter succeeded rs))%nat.
Proof.
  induction names as [|name names IH]; intros results st.
  - exists [], st. simpl. rewrite !app_nil_r, Nat.add_0_r.
    repeat split. constructor.
  - cbn [batch_loop List.filter]. fold (is_image_name name).
    destruct (is_image_name name) eqn:Hname; [| apply IH].
    unfold bind at 1. cbn [print modify].
    destruct (analyze_image_outcome (set_stdout (stdout st ++ ["Analyzing: " +:+ name]) st)
                (path_join directory name))
      as (r & Hpath & [(Hok & _ & Hrun) | (Hbad & Hrun)]);
      unfold bind at 1; rewrite Hrun;
      match goal with
      | |- context [batch_loop directory names (results ++ [r]) ?s] =>
          destruct (IH (results ++ [r]) s)
            as (rs & st' & Hloop & Hpaths & Hout & Hhist & Hclock)
      end;
      exists (r :: rs), st'; rewrite Hloop, <- app_assoc;
      (split; [reflexivity|]); (split; [now constructor|]);
      cbn [List.filter]; rewrite ?Hok, ?Hbad;
      cbn [map]; rewrite Hout, Hhist, Hclock; simpl;
      rewrite <- ?app_assoc; repeat split; simpl; lia.
Qed.

Lemma batch_analyze_enters (st : State) (directory : string)
    (names : list string) :
  fs st !! directory = Some (Dir names) ->
  batch_analyze directory st = batch_loop directory names [] st.
Proof.
  intros Hd. unfold batch_analyze, bind, path_exists, iterdir.
  rewrite bool_decide_eq_true_2 by (rewrite Hd; eauto).
  cbn [negb]. now rewrite Hd.
Qed.

(** X4. On a directory [batch_analyze] does not raise; it returns one record
    for every entry whose extension, in lower case, is an image extension,
    in the order of the listing, each with the path of its entry as
    pathlib writes it, and prints one line for each; the other entries
    are passed over. *)
Theorem batch_analyze_directory (st : State) (directory : string)
    (names : list string) :
  fs st !! directory = Some (Dir names) ->
  exists rs : list dict,
    fst (batch_analyze directory st) = Ok rs
    /\ Forall2 (fun name r =>
                  r !! "image_path" = Some (PyStr (path_join directory name)))
               (List.filter is_image_name names) rs
    /\ stdout (snd (batch_analyze directory st))
       = stdout st ++ map (fun name => "Analyzing: " +:+ name)
                          (List.filter is_image_name names).
Proof.
  intros Hd.
  destruct (batch_loop_results directory names [] st)
    as (rs & st' & Hloop & Hpaths & Hout & _).
  exists rs. rewrite (batch_analyze_enters _ _ _ Hd), Hloop.
  repeat split; assumption.
Qed.

(** X5. Of the records a batch returns, exactly those without an "error" key
    are appended to the history, in order, and the clock is read once for
    each of them; the error records are returned but not kept. *)
Theorem batch_analyze_history (st : State) (directory : string)
    (names : list string) :
  fs st !! directory = Some (Dir names) ->
  exists rs : list dict,
    fst (batch_analyze directory st) = Ok rs
    /\ analysis_history (self (snd (batch_analyze directory st)))
       = analysis_history (self st) ++ List.filter succeeded rs
    /\ clock (snd (batch_analyze directory st))
       = (clock st + length (List.filter succeeded rs))%nat.
Proof.
  intros Hd.
  destruct (batch_loop_results directory names [] st)
    as (rs & st' & Hloop & _ & _ & Hhist & Hclock).
  exists rs. rewrite (batch_analyze_enters _ _ _ Hd), Hloop.
  repeat split; assumption.
Qed.

(** X6. A path that exists but is a file passes the test of [batch_analyze]
    and fails in the listing: the call raises NotADirectoryError (it does
    not return an error record) and the state is as it was. *)
Theorem batch_analyze_on_file (st : State) (path : string) :
  (exists img, fs st !! path = Some (Picture img))
  \/ (exists content, fs st !! path = Some (Text content)) ->
  exists message : string,
    batch_analyze path st = (Raise (Exn "NotADirectoryError" message), st).
Proof.
  intros [[img Hp] | [content Hp]];
    unfold batch_analyze, bind, path_exists, iterdir;
    rewrite bool_decide_eq_true_2 by (rewrite Hp; eauto);
    cbn [negb]; rewrite Hp; eexists; reflexivity.
Qed.

(** ** Timestamps *)

Lemma stamped_same (ticks : nat) (st st' : State) :
  self st' = self st -> clock st' = clock st ->
  stamped ticks st -> stamped ticks st'.
Proof. unfold stamped. now intros -> ->. Qed.

Lemma stamped_unchanged {A} (ticks : nat) (m : M A) :
  (forall st, self (snd (m st)) = self st /\ clock (snd (m st)) = clock st) ->
  preserves (stamped ticks) m.
Proof. intros Hm st. destruct (Hm st). now apply stamped_same. Qed.

Lemma analyze_image_stamped (ticks : nat) (image_path : string) :
  preserves (stamped ticks) (analyze_image image_path).
Proof.
  intros st [Hclock Hstamps].
  destruct (analyze_image_outcome st image_path)
    as (r & _ & [(_ & Ht & ->) | (_ & ->)]); [| now split].
  split; simpl.
  - rewrite length_app, Hclock. simpl. lia.
  - intros i r' Hi. apply lookup_app_Some in Hi as [Hi | [Hlen Hi]].
    + now apply Hstamps.
    + apply list_lookup_singleton_Some in Hi as [Hz <-].
      rewrite Ht, Hclock. do 3 f_equal. lia.
Qed.

Lemma batch_loop_stamped (ticks : nat) (directory : string)
    (names : list string) (results : list dict) :
  preserves (stamped ticks) (batch_loop directory names results).
Proof.
  revert results. induction names as [|name names IH]; intros results; simpl.
  - apply preserves_ret.
  - destruct (bool_decide _); [| apply IH].
    apply preserves_bind; [now apply stamped_unchanged | intros _].
    apply preserves_bind; [apply analyze_image_stamped | intros r; apply IH].
Qed.

Lemma batch_analyze_stamped (ticks : nat) (directory : string) :
  preserves (stamped ticks) (batch_analyze directory).
Proof.
  unfold batch_analyze. apply preserves_bind.
  - now apply stamped_unchanged.
  - intros found. destruct (negb found); [apply preserves_ret|].
    apply preserves_bind.
    + apply stamped_unchanged. intros st. unfold iterdir.
      now destruct (fs st !! directory) as [[| |]|].
    + intros names. apply batch_loop_stamped.
Qed.

Lemma after_stamped (ticks : nat) (c : call) (st : State) :
  stamped ticks st -> stamped ticks (after c st).
Proof.
  intros Hst. destruct c; simpl.
  - now apply analyze_image_stamped.
  - now apply batch_analyze_stamped.
  - destruct (export_results_only_wrote output_path format st)
      as (Hself & Hclock & _).
    now apply (stamped_same ticks st).
Qed.

(** X7. After any sequence of calls on a fresh analyzer the clock has been
    read exactly once for every record of the history, and the i-th
    record carries the text of the i-th reading as its timestamp. *)
Theorem history_stamped_in_order (files : filesystem) (locked : gset string)
    (out : list string) (ticks : nat) (model : option string)
    (calls : list call) :
  stamped ticks (run calls (started files locked out ticks model)).
Proof.
  assert (Hstart : stamped ticks (started files locked out ticks model)).
  { split; simpl; [lia | intros i r Hi; discriminate Hi]. }
  revert Hstart. generalize (started files locked out ticks model).
  induction calls as [|c calls IH]; intros st Hst; simpl; [exact Hst|].
  apply IH. now apply after_stamped.
Qed.

End Batches.

(* ===================================================================== *)
(** * Further properties: export and the command lines *)
(* ===================================================================== *)

Section Exports.
Context `{Runtime} `{Np.Float64}.

(** X8. The json export of [export_results] on a destination that can be
    opened: the file holds what [json.dump] wrote; when [json.dump] ended
    with an exception the call raises it and prints nothing, otherwise it
    prints that the results were exported. *)
Theorem export_json_outcome (st : State) (output_path text : string)
    (failure : option exn) :
  writable st output_path ->
  json_dump (analysis_history (self st)) = (text, failure) ->
  export_results output_path "json" st
  = match failure with
    | Some e =>
        (Raise e, set_fs (<[output_path := Text text]> (fs st)) st)
    | None =>
        (Ok tt,
         set_stdout (stdout st ++ ["Results exported to: " +:+ output_path])
           (set_fs (<[output_path := Text text]> (fs st)) st))
    end.
Proof.
  intros Hw Hdump. unfold export_results, export_json, bind, get.
  cbn [String.eqb Ascii.eqb Bool.eqb]. rewrite (open_w_returns _ _ Hw).
  cbn [self set_fs]. rewrite Hdump.
  rewrite (file_write_appends _ _ "" _) by (simpl; apply lookup_insert_eq).
  cbn [fs set_fs]. rewrite insert_insert_eq.
  destruct failure; reflexivity.
Qed.

(** X9. An export in either format to a destination that cannot be opened
    raises, prints nothing and changes nothing. *)
Theorem export_refused (st : State) (output_path format : string) :
  ~ writable st output_path ->
  format = "json" \/ format = "csv" ->
  exists e : exn, export_results output_path format st = (Raise e, st).
Proof.
  intros Hno Hfmt. destruct (open_w_raises st output_path Hno) as [e He].
  exists e. destruct Hfmt as [-> | ->];
    unfold export_results, export_json, _export_csv, bind;
    cbn [String.eqb Ascii.eqb Bool.eqb]; now rewrite He.
Qed.

End Exports.

Section Programs.
Context `{Runtime} `{Np.Float64}.
Variable json_dumps : dict -> result string.

Lemma bind_returns {A B} (m : M A) (k : A -> M B) (st : State) (a : A)
    (st' : State) :
  m st = (Ok a, st') -> bind m k st = k a st'.
Proof. intros Hm. unfold bind. now rewrite Hm. Qed.

Lemma lift_same_files {A} (r : result A) : steps same_files (Cli.lift r).
Proof.
  destruct r; [apply (steps_ret _ same_files_refl)
              | apply (steps_raise _ same_files_refl)].
Qed.

Lemma main_analyze_same_files (args : Cli.Args) :
  steps same_files (Cli.main_analyze json_dumps args).
Proof.
  unfold Cli.main_analyze.
  destruct (Cli.truthy (Cli.image args)) as [image_path|];
    [| destruct (Cli.truthy (Cli.directory args)) as [dir|]];
    repeat (apply (steps_bind _ same_files_trans);
            [first [ apply print_same_files
                   | apply analyze_image_same_files
                   | apply batch_analyze_same_files
                   | apply lift_same_files ]
            | intros ?]);
    apply (steps_ret _ same_files_refl).
Qed.

(** X10. [main] opens the output only after an analysis has succeeded: when
    the history is empty at the end of a run, whatever the arguments and
    whatever happened, no file has changed. *)
Theorem main_writes_only_after_success (args : Cli.Args) (st : State) :
  analysis_history (self (snd (Cli.main json_dumps args st))) = [] ->
  fs (snd (Cli.main json_dumps args st)) = fs st.
Proof.
  remember (Cli.main json_dumps args st) as out eqn:Hout.
  unfold Cli.main, Cli.new_analyzer, bind in Hout. cbn [modify print] in Hout.
  match type of Hout with
  | context [Cli.main_analyze json_dumps args ?s] => set (st1 := s) in Hout
  end.
  assert (Hfs1 : fs st1 = fs st) by reflexivity.
  pose proof (main_analyze_same_files args st1) as [Hfs2 _].
  destruct (Cli.main_analyze json_dumps args st1) as [[[|] | e] st2];
    cbn [snd] in Hfs2;
    try (subst out; intros _; unfold ret; cbn [snd]; congruence).
  unfold get in Hout.
  destruct (analysis_history (self st2)) as [|r rs] eqn:Hh.
  { subst out. intros _. unfold ret. cbn [snd]. congruence. }
  intros Hempty. exfalso.
  pose proof (export_results_only_wrote (Cli.output args) (Cli.format args) st2)
    as (Hself & _).
  destruct (export_results (Cli.output args) (Cli.format args) st2)
    as [[[] | e] st3]; subst out; simpl in Hempty, Hself;
    rewrite Hself, Hh in Hempty; discriminate Hempty.
Qed.

(** X11. For a directory that does not exist [main] reports one analyzed
    image: it counts the error record [batch_analyze] returns.  It writes
    no file. *)
Theorem main_counts_error_record (args : Cli.Args) (dir : string) (st : State) :
  Cli.truthy (Cli.image args) = None ->
  Cli.truthy (Cli.directory args) = Some dir ->
  fs st !! dir = None ->
  exists st' : State,
    Cli.main json_dumps args st = (Ok tt, st')
    /\ stdout st'
       = stdout st ++ [ Cli.rule 60; "Paleontology Analysis Tools v1.0";
                        "AI-Powered Fossil Identification System";
                        Cli.rule 60; "";
                        "Batch analyzing directory: " +:+ dir;
                        "Analyzed 1 images" ]
    /\ fs st' = fs st.
Proof.
  intros Himg Hdir Hmissing.
  unfold Cli.main, Cli.main_analyze, Cli.new_analyzer. rewrite Himg, Hdir.
  unfold batch_analyze, bind, path_exists, get. cbn [modify print set_stdout fs].
  rewrite Hmissing.
  rewrite bool_decide_eq_false_2 by (intros [x Hx]; discriminate Hx).
  eexists. split; [reflexivity|]. simpl.
  split; [|reflexivity]. repeat rewrite <- app_assoc. reflexivity.
Qed.

(** X12. The [analyze] command of cli_tool.py exports even when nothing was
    analyzed: for a path that names nothing and the csv format it leaves
    an empty file at the output and reports the results as saved. *)
Theorem cli_exports_without_analysis (st : State) (path out : string) :
  fs st !! path = None ->
  writable st out ->
  exists st' : State,
    Cli.cli_analyze json_dumps path out "csv" st = (Ok tt, st')
    /\ fs st' = <[out := Text ""]> (fs st)
    /\ stdout st'
       = stdout st ++ [ "Results exported to: " +:+ out;
                        "Results saved to " +:+ out ]
    /\ analysis_history (self st') = [].
Proof.
  intros Hmissing Hw. unfold Cli.cli_analyze.
  set (st0 := {| fs := fs st; readonly := readonly st; stdout := stdout st;
                 clock := clock st; self := __init__ None |}).
  assert (Hfile : Cli.path_is_file path st0 = (Ok false, st0))
    by (unfold Cli.path_is_file; simpl; now rewrite Hmissing).
  assert (Hdir : Cli.path_is_dir path st0 = (Ok false, st0))
    by (unfold Cli.path_is_dir; simpl; now rewrite Hmissing).
  assert (Hopen : open_w out st0
                  = (Ok tt, set_fs (<[out := Text ""]> (fs st0)) st0))
    by (apply open_w_returns; exact Hw).
  rewrite (bind_returns _ _ st tt st0) by reflexivity.
  rewrite (bind_returns _ _ st0 false st0) by exact Hfile.
  rewrite (bind_returns _ _ st0 tt st0)
    by (rewrite (bind_returns _ _ st0 false st0) by exact Hdir; reflexivity).
  unfold export_results, _export_csv. cbn [String.eqb Ascii.eqb Bool.eqb].
  rewrite (bind_returns _ _ st0 tt
             (set_stdout (stdout st0 ++ ["Results exported to: " +:+ out])
                (set_fs (<[out := Text ""]> (fs st0)) st0))).
  - eexists. split; [reflexivity|]. simpl.
    repeat split. repeat rewrite <- app_assoc. reflexivity.
  - rewrite (bind_returns _ _ st0 tt (set_fs (<[out := Text ""]> (fs st0)) st0));
      [reflexivity|].
    rewrite (bind_returns _ _ _ _ _ Hopen). reflexivity.
Qed.

End Programs.

(* ===================================================================== *)
(** * Further properties: the extractors and the species table *)
(* ===================================================================== *)

Section Features.
Context `{Np.Float64}.

(** ** Short and empty images *)

Lemma diff_axis0_short (g : Np.ndarray2) :
  (length g <= 1)%nat -> Np.diff_axis0 g = [].
Proof.
  destruct g as [|r0 [|r1 g]]; simpl; intros Hlen; try reflexivity. lia.
Qed.

Lemma concat_all_nil {A} (g : list (list A)) :
  Forall (fun row => row = []) g -> concat g = [].
Proof. induction 1 as [|row g -> _ IH]; simpl; [reflexivity | exact IH]. Qed.

Lemma zip_with_all_nil {A B C} (f : A -> B -> list C) (g1 : list A) (g2 : list B) :
  (forall x y, In y g2 -> f x y = []) ->
  Forall (fun row => row = []) (zip_with f g1 g2).
Proof.
  revert g2. induction g1 as [|x g1 IH]; intros [|y g2] Hf; simpl;
    try constructor.
  - apply Hf. now left.
  - apply IH. intros x' y' Hin. apply Hf. now right.
Qed.

(** X13. Bone structure is looked for in the differences between consecutive
    rows: an image of fewer than two rows, or of no columns, has none, the
    mean of no differences is nan, and the flag is false. *)
Theorem bone_structure_needs_two_rows (img_array : Np.ndarray3) :
  (length img_array <= 1)%nat \/ Forall (fun row => row = []) img_array ->
  _identify_bone_structure img_array = false.
Proof.
  intros Hshape.
  assert (Hnone : concat (_detect_edges img_array) = []).
  { unfold _detect_edges, Np.abs. apply concat_all_nil.
    destruct Hshape as [Hrows | Hcols].
    - rewrite diff_axis0_short; [constructor|].
      unfold Np.mean_axis2. now rewrite length_map.
    - apply Forall_map. unfold Np.diff_axis0.
      eapply Forall_impl;
        [apply zip_with_all_nil | intros row ->; reflexivity].
      intros r1 r0 Hin.
      unfold Np.mean_axis2 in Hin. apply in_map_iff in Hin as (row & <- & Hin).
      rewrite Forall_forall in Hcols.
      rewrite (Hcols row) by (now apply list_elem_of_In).
      unfold Np.row_sub. now destruct r1. }
  unfold _identify_bone_structure, Np.mean2. now rewrite Hnone.
Qed.

(** ** The species table *)

(** X15. [_suggest_species] matches the fossil type exactly: every string other
    than the three types of the table gets ["Unknown"], and only those. *)
Theorem suggest_species_fallback (fossil_type : string) :
  _suggest_species fossil_type = ["Unknown"]
  <-> fossil_type <> "Permineralized Bone"
      /\ fossil_type <> "Petrified Wood"
      /\ fossil_type <> "Shell Fragment".
Proof.
  unfold _suggest_species, species_database. cbn [list_to_map foldr uncurry].
  split.
  - intros Hu. repeat split; intros ->; vm_compute in Hu; discriminate Hu.
  - intros (H1 & H2 & H3).
    rewrite lookup_insert_ne by (intros Heq; apply H1; now symmetry).
    rewrite lookup_insert_ne by (intros Heq; apply H2; now symmetry).
    rewrite lookup_insert_ne by (intros Heq; apply H3; now symmetry).
    reflexivity.
Qed.

End Features.

(* ===================================================================== *)
(** * The further properties at work on the sample data *)
(* ===================================================================== *)

Section MoreSamples.
Import Sample.

(** The paths of the entries as pathlib writes them. *)
Example path_join_normalises :
  path_join "./fossils" "bone.png" = "fossils/bone.png"
  /\ path_join "fossils//site/" "bone.png" = "fossils/site/bone.png"
  /\ path_join "." "bone.png" = "bone.png"
  /\ path_join "/" "bone.png" = "/bone.png"
  /\ path_join "../fossils" "bone.png" = "../fossils/bone.png".
Proof. repeat split. Qed.

(** The sample directory: two of its three entries are images. *)
Lemma batch_analyze_directory_witness :
  exists rs : list dict,
    fst (batch_analyze "fossils" world) = Ok rs
    /\ Forall2 (fun name r =>
                  r !! "image_path" = Some (PyStr (path_join "fossils" name)))
               (List.filter is_image_name ["bone.png"; "notes.txt"; "wood.JPG"]) rs
    /\ stdout (snd (batch_analyze "fossils" world))
       = stdout world
         ++ map (fun name => "Analyzing: " +:+ name)
                (List.filter is_image_name ["bone.png"; "notes.txt"; "wood.JPG"]).
Proof.
  apply (batch_analyze_directory world "fossils"). reflexivity.
Defined.

Lemma batch_analyze_history_witness :
  exists rs : list dict,
    fst (batch_analyze "fossils" world) = Ok rs
    /\ analysis_history (self (snd (batch_analyze "fossils" world)))
       = analysis_history (self world) ++ List.filter succeeded rs
    /\ clock (snd (batch_analyze "fossils" world))
       = (clock world + length (List.filter succeeded rs))%nat.
Proof.
  apply (batch_analyze_history world "fossils"
           ["bone.png"; "notes.txt"; "wood.JPG"]).
  reflexivity.
Defined.

Lemma batch_analyze_on_file_witness :
  exists message : string,
    batch_analyze "fossils/notes.txt" world
    = (Raise (Exn "NotADirectoryError" message), world).
Proof.
  apply (batch_analyze_on_file world "fossils/notes.txt").
  right. exists "field notes". reflexivity.
Defined.

Lemma world_writable (path : string) :
  fs world !! path = None -> path <> "archive.csv" -> writable world path.
Proof.
  intros Hp Hne. split.
  - intros names Hdir. congruence.
  - cbn [world started readonly]. intros Hin.
    apply elem_of_singleton in Hin. contradiction.
Qed.

Lemma export_json_outcome_witness :
  export_results "results.json" "json" world
  = (Ok tt,
     set_stdout (stdout world ++ ["Results exported to: results.json"])
       (set_fs (<["results.json" := Text "[]"]> (fs world)) world)).
Proof.
  apply (export_json_outcome world "results.json" "[]" None).
  - apply world_writable; [reflexivity | discriminate].
  - reflexivity.
Defined.

Lemma export_refused_witness :
  exists e : exn, export_results "fossils" "csv" world = (Raise e, world).
Proof.
  apply (export_refused world "fossils" "csv").
  - intros [Hdir _]. apply (Hdir ["bone.png"; "notes.txt"; "wood.JPG"]).
    reflexivity.
  - now right.
Defined.

Lemma main_writes_only_after_success_witness :
  fs (snd (Cli.main Scenario.json_dumps Scenario.image_missing world))
  = fs world.
Proof.
  apply (main_writes_only_after_success Scenario.json_dumps
           Scenario.image_missing world).
  reflexivity.
Defined.

Lemma main_counts_error_record_witness :
  exists st' : State,
    Cli.main Scenario.json_dumps Scenario.directory_missing world = (Ok tt, st')
    /\ stdout st'
       = stdout world ++ [ Cli.rule 60; "Paleontology Analysis Tools v1.0";
                           "AI-Powered Fossil Identification System";
                           Cli.rule 60; "";
                           "Batch analyzing directory: " +:+ "museum";
                           "Analyzed 1 images" ]
    /\ fs st' = fs world.
Proof.
  apply (main_counts_error_record Scenario.json_dumps
           Scenario.directory_missing "museum" world); reflexivity.
Defined.

Lemma cli_exports_without_analysis_witness :
  exists st' : State,
    Cli.cli_analyze Scenario.json_dumps "museum" "results.csv" "csv" world
    = (Ok tt, st')
    /\ fs st' = <["results.csv" := Text ""]> (fs world)
    /\ stdout st'
       = stdout world ++ [ "Results exported to: " +:+ "results.csv";
                           "Results saved to " +:+ "results.csv" ]
    /\ analysis_history (self st') = [].
Proof.
  apply (cli_exports_without_analysis Scenario.json_dumps world
           "museum" "results.csv").
  - reflexivity.
  - split.
    + intros names Hdir. vm_compute in Hdir. discriminate Hdir.
    + cbn [world started readonly]. intros Hin.
      apply elem_of_singleton in Hin. discriminate Hin.
Defined.

(** [wood] has one row. *)
Lemma bone_structure_needs_two_rows_witness :
  _identify_bone_structure (rgb wood) = false.
Proof.
  apply (bone_structure_needs_two_rows (rgb wood)). left. simpl. lia.
Defined.

End MoreSamples.
